(** * Mini-Agent: the ACP bridge and the MiniMax model client

    A shallow embedding of [mini_agent/llm.py] and [mini_agent/acp/__init__.py]
    and the properties of the turn executor, the session table, the model
    client's wire conversion and the offline substitute.

    Conventions of the embedding.
    - A Python [str] is a Rocq [string]; one [ascii] stands for one code point
      below 256 (the model is exact on Latin-1 text).
    - A JSON value ([Any] in the annotations) is a [PyValue]; JSON numbers are
      integers ([Z]), floating point numbers are not modelled.
    - A Python [dict] whose order matters (keyword arguments, JSON objects,
      the tool registry) is an association list in insertion order with
      distinct keys; [dict_get] is [dict.get].
    - A raised exception is the left summand of a sum, a returned value the
      right one.
    - Awaited collaborators (the backend, the tools, the client connection)
      are functions on an explicit world state. *)

From Stdlib Require Import ZArith String Ascii List Bool Lia.
From stdpp Require Import base option list strings pretty gmap.

Import ListNotations.
Local Open Scope string_scope.
Local Open Scope list_scope.
Set Warnings "-register-all".

(** ** Python values and the builtins the two modules rely on *)

Module Py.

Inductive PyValue : Type :=
| PyNone
| PyBool (b : bool)
| PyInt (n : Z)
| PyStr (s : string)
| PyList (items : list PyValue)
| PyDict (items : list (string * PyValue)).

(** Exceptions, by class; [str(exc)] is [exn_text]. All of them derive from
    [Exception], so [except Exception] catches each one. *)
Inductive PyExn : Type :=
| Exception (msg : string)
| AttributeError (msg : string)
| TypeError (msg : string)
| ValidationError (msg : string)
| TransportError (msg : string).

Definition exn_text (e : PyExn) : string :=
  match e with
  | Exception m | AttributeError m | TypeError m
  | ValidationError m | TransportError m => m
  end.

Definition Result (A : Type) : Type := (PyExn + A)%type.

Definition ret {A} (a : A) : Result A := inr a.
Definition raise {A} (e : PyExn) : Result A := inl e.
Definition bind {A B} (m : Result A) (k : A -> Result B) : Result B :=
  match m with
  | inl e => inl e
  | inr a => k a
  end.

Notation "'let!' x ':=' m 'in' k" := (bind m (fun x => k))
  (at level 10, x name, m at level 100, k at level 200).

(** [dict.get(k)] on an insertion-ordered mapping. *)
Fixpoint dict_get {V : Type} (d : list (string * V)) (k : string) : option V :=
  match d with
  | [] => None
  | (k', v) :: rest => if String.eqb k' k then Some v else dict_get rest k
  end.

(** [type(v).__name__]. *)
Definition type_name (v : PyValue) : string :=
  match v with
  | PyNone => "NoneType"
  | PyBool _ => "bool"
  | PyInt _ => "int"
  | PyStr _ => "str"
  | PyList _ => "list"
  | PyDict _ => "dict"
  end.

(** [v.get(k, dflt)]: only a dict has the method. *)
Definition py_get (v : PyValue) (k : string) (dflt : PyValue) : Result PyValue :=
  match v with
  | PyDict d => ret (default dflt (dict_get d k))
  | _ => raise (AttributeError ("'" +:+ type_name v +:+ "' object has no attribute 'get'"))
  end.

(** [v == "s"] and [v == n] for a string, respectively integer, literal.
    Python compares [bool] with [int] numerically. *)
Definition py_eq_str (v : PyValue) (s : string) : bool :=
  match v with
  | PyStr s' => String.eqb s' s
  | _ => false
  end.

Definition py_eq_int (v : PyValue) (n : Z) : bool :=
  match v with
  | PyInt z => Z.eqb z n
  | PyBool b => Z.eqb (if b then 1 else 0) n
  | _ => false
  end.

Definition py_is_none (v : PyValue) : bool :=
  match v with
  | PyNone => true
  | _ => false
  end.

(** Truthiness of a [str]. *)
Definition str_truthy (s : string) : bool :=
  match s with
  | EmptyString => false
  | String _ _ => true
  end.

(** Iteration ([for x in v]). *)
Definition py_iter (v : PyValue) : Result (list PyValue) :=
  match v with
  | PyList l => ret l
  | PyDict d => ret (map (fun kv => PyStr (fst kv)) d)
  | PyStr s => ret (map (fun c => PyStr (String c EmptyString)) (list_ascii_of_string s))
  | _ => raise (TypeError ("'" +:+ type_name v +:+ "' object is not iterable"))
  end.

(** *** [repr] and [str] *)

Definition hex_digit (n : nat) : ascii :=
  if Nat.ltb n 10 then ascii_of_nat (48 + n) else ascii_of_nat (87 + n).

Definition str_of_char (c : ascii) : string := String c EmptyString.

Definition squote : ascii := "039"%char.
Definition dquote : ascii := "034"%char.
Definition backslash : ascii := "092"%char.

Fixpoint has_char (c : ascii) (s : string) : bool :=
  match s with
  | EmptyString => false
  | String c' rest => Ascii.eqb c c' || has_char c rest
  end.

(** Code points below 256 that [str.isprintable] rejects. *)
Definition non_printable (n : nat) : bool :=
  Nat.ltb n 32 || Nat.eqb n 127 || (Nat.leb 128 n && Nat.leb n 160) || Nat.eqb n 173.

Definition repr_char (quote c : ascii) : string :=
  let n := nat_of_ascii c in
  if Ascii.eqb c quote || Ascii.eqb c backslash then String backslash (str_of_char c)
  else if Nat.eqb n 9 then String backslash "t"
  else if Nat.eqb n 10 then String backslash "n"
  else if Nat.eqb n 13 then String backslash "r"
  else if non_printable n
       then String backslash (String "x" (String (hex_digit (n / 16)) (str_of_char (hex_digit (n mod 16)))))
  else str_of_char c.

Fixpoint repr_chars (quote : ascii) (s : string) : string :=
  match s with
  | EmptyString => EmptyString
  | String c rest => repr_char quote c +:+ repr_chars quote rest
  end.

Definition repr_str (s : string) : string :=
  let quote := if has_char squote s && negb (has_char dquote s) then dquote else squote in
  String quote (repr_chars quote s +:+ str_of_char quote).

Fixpoint repr (v : PyValue) : string :=
  match v with
  | PyNone => "None"
  | PyBool true => "True"
  | PyBool false => "False"
  | PyInt n => pretty n
  | PyStr s => repr_str s
  | PyList l => "[" +:+ String.concat ", " (map repr l) +:+ "]"
  | PyDict d =>
      "{" +:+ String.concat ", "
                (map (fun kv => match kv with
                                | (k, x) => repr_str k +:+ ": " +:+ repr x
                                end) d) +:+ "}"
  end.

(** [str(v)], as an f-string formats a value. *)
Definition str (v : PyValue) : string :=
  match v with
  | PyStr s => s
  | _ => repr v
  end.

(** *** [str.lower], [str.strip], [in] *)

Definition lower_char (c : ascii) : ascii :=
  let n := nat_of_ascii c in
  if (Nat.leb 65 n && Nat.leb n 90)
     || (Nat.leb 192 n && Nat.leb n 214)
     || (Nat.leb 216 n && Nat.leb n 222)
  then ascii_of_nat (n + 32) else c.

Fixpoint lower (s : string) : string :=
  match s with
  | EmptyString => EmptyString
  | String c rest => String (lower_char c) (lower rest)
  end.

Definition is_space (c : ascii) : bool :=
  let n := nat_of_ascii c in
  (Nat.leb 9 n && Nat.leb n 13) || (Nat.leb 28 n && Nat.leb n 32)
  || Nat.eqb n 133 || Nat.eqb n 160.

Fixpoint lstrip (s : string) : string :=
  match s with
  | EmptyString => EmptyString
  | String c rest => if is_space c then lstrip rest else s
  end.

Fixpoint rstrip (s : string) : string :=
  match s with
  | EmptyString => EmptyString
  | String c rest =>
      match rstrip rest with
      | EmptyString => if is_space c then EmptyString else str_of_char c
      | r => String c r
      end
  end.

Definition strip (s : string) : string := rstrip (lstrip s).

(** [needle in hay] for two strings. *)
Fixpoint contains (needle hay : string) : bool :=
  String.prefix needle hay
  || match hay with
     | EmptyString => false
     | String _ rest => contains needle rest
     end.

End Py.

(** ** The message model ([mini_agent/schema.py]) *)

Module Schema.
Import Py.

(** Modelled from the spec: the declarations of [schema.py] (Message,
    ToolCall, FunctionCall, LLMResponse) are not part of the sources; the
    fields are the ones [llm.py] and [acp/__init__.py] read and write, typed
    as the data model describes them (role among system, user, assistant and
    tool; a tool call has an identifier, a tool name and an argument
    mapping). *)
Module Role.
Inductive t : Type := system | user | assistant | tool.

Definition eqb (a b : t) : bool :=
  match a, b with
  | system, system | user, user | assistant, assistant | tool, tool => true
  | _, _ => false
  end.
End Role.

Module FunctionCall.
Record t : Type := mk { name : string; arguments : list (string * PyValue) }.
End FunctionCall.

Module ToolCall.
Record t : Type := mk { id : string; type : string; function : FunctionCall.t }.
End ToolCall.

Module Message.
Record t : Type := mk {
  role : Role.t;
  content : string;
  thinking : option string;
  tool_calls : option (list ToolCall.t);
  tool_call_id : option string;
  name : option string
}.
End Message.

Module LLMResponse.
Record t : Type := mk {
  content : string;
  thinking : option string;
  tool_calls : option (list ToolCall.t);
  finish_reason : PyValue
}.
End LLMResponse.

(** Truthiness of an optional string and of an optional list. *)
Definition opt_str_truthy (o : option string) : bool :=
  match o with
  | Some s => str_truthy s
  | None => false
  end.

Definition opt_list_truthy {A : Type} (o : option (list A)) : bool :=
  match o with
  | Some (_ :: _) => true
  | _ => false
  end.

(** The text of an optional string, the absent one read as empty. *)
Definition opt_text (o : option string) : string := default EmptyString o.

End Schema.

(** ** The model client ([mini_agent/llm.py]) *)

Module LLM.
Import Py Schema.

(** The fields of [LLMClient] that the methods read. [retry_enabled] is
    [self.retry_config.enabled]. *)
Record LLMClient : Type := mkLLMClient {
  api_key : string;
  api_base : string;
  model : string;
  retry_enabled : bool;
  _offline : bool;
  _fake_call_counter : Z
}.

Definition with_counter (self : LLMClient) (n : Z) : LLMClient :=
  mkLLMClient (api_key self) (api_base self) (model self)
              (retry_enabled self) (_offline self) n.

(** *** Conversion of the conversation into the request body *)

Definition opt_to_py (o : option string) : PyValue :=
  match o with
  | Some s => PyStr s
  | None => PyNone
  end.

Definition role_name (r : Role.t) : string :=
  match r with
  | Role.system => "system"
  | Role.user => "user"
  | Role.assistant => "assistant"
  | Role.tool => "tool"
  end.

Definition tool_use_block (tool_call : ToolCall.t) : PyValue :=
  PyDict [("type", PyStr "tool_use");
          ("id", PyStr (ToolCall.id tool_call));
          ("name", PyStr (FunctionCall.name (ToolCall.function tool_call)));
          ("input", PyDict (FunctionCall.arguments (ToolCall.function tool_call)))].

(** The [content_blocks] built for an assistant message that carries thinking
    or tool calls. *)
Definition content_blocks (msg : Message.t) : list PyValue :=
  (if opt_str_truthy (Message.thinking msg)
   then [PyDict [("type", PyStr "thinking");
                 ("thinking", opt_to_py (Message.thinking msg))]]
   else [])
  ++ (if str_truthy (Message.content msg)
      then [PyDict [("type", PyStr "text"); ("text", PyStr (Message.content msg))]]
      else [])
  ++ (if opt_list_truthy (Message.tool_calls msg)
      then map tool_use_block (default [] (Message.tool_calls msg))
      else []).

(** One iteration of the loop over [messages]: the pair is
    [(system_message, api_messages)]. *)
Definition convert_message (acc : option string * list PyValue) (msg : Message.t)
  : option string * list PyValue :=
  let '(system_message, api_messages) := acc in
  match Message.role msg with
  | Role.system => (Some (Message.content msg), api_messages)
  | Role.user =>
      (system_message,
       api_messages ++ [PyDict [("role", PyStr (role_name (Message.role msg)));
                                ("content", PyStr (Message.content msg))]])
  | Role.assistant =>
      if opt_str_truthy (Message.thinking msg) || opt_list_truthy (Message.tool_calls msg)
      then (system_message,
            api_messages ++ [PyDict [("role", PyStr "assistant");
                                     ("content", PyList (content_blocks msg))]])
      else (system_message,
            api_messages ++ [PyDict [("role", PyStr (role_name (Message.role msg)));
                                     ("content", PyStr (Message.content msg))]])
  | Role.tool =>
      (system_message,
       api_messages ++
         [PyDict [("role", PyStr "user");
                  ("content",
                   PyList [PyDict [("type", PyStr "tool_result");
                                   ("tool_use_id", opt_to_py (Message.tool_call_id msg));
                                   ("content", PyStr (Message.content msg))]])]])
  end.

Definition convert_messages (messages : list Message.t) : option string * list PyValue :=
  fold_left convert_message messages (None, []).

Definition build_payload (self : LLMClient) (messages : list Message.t)
           (tools : option (list PyValue)) : PyValue :=
  let '(system_message, api_messages) := convert_messages messages in
  PyDict ([("model", PyStr (model self));
           ("messages", PyList api_messages);
           ("max_tokens", PyInt 16384)]
          ++ (if opt_str_truthy system_message
              then [("system", opt_to_py system_message)] else [])
          ++ (if opt_list_truthy tools
              then [("tools", PyList (default [] tools))] else [])).

(** *** Parsing of the response body *)

(** [text += v]: only a [str] can be appended to a [str]. *)
Definition as_str (v : PyValue) : Result string :=
  match v with
  | PyStr s => ret s
  | _ => raise (TypeError ("can only concatenate str (not " +:+ String dquote (type_name v)
                           +:+ String dquote ") to str"))
  end.

(** [ToolCall(id=..., type="function", function=FunctionCall(name=...,
    arguments=...))]: the constructor validates the field types. *)
Definition parse_tool_use (block : PyValue) : Result ToolCall.t :=
  let! i := py_get block "id" PyNone in
  let! n := py_get block "name" PyNone in
  let! a := py_get block "input" (PyDict []) in
  match i, n, a with
  | PyStr i', PyStr n', PyDict a' =>
      ret (ToolCall.mk i' "function" (FunctionCall.mk n' a'))
  | _, _, _ => raise (ValidationError "validation error for ToolCall")
  end.

Fixpoint parse_blocks (blocks : list PyValue)
         (text_content thinking_content : string) (tool_calls : list ToolCall.t)
  : Result (string * string * list ToolCall.t) :=
  match blocks with
  | [] => ret (text_content, thinking_content, tool_calls)
  | block :: rest =>
      match py_get block "type" PyNone with
      | inl e => inl e
      | inr ty =>
          if py_eq_str ty "text" then
            match bind (py_get block "text" (PyStr "")) as_str with
            | inl e => inl e
            | inr t => parse_blocks rest (text_content +:+ t) thinking_content tool_calls
            end
          else if py_eq_str ty "thinking" then
            match bind (py_get block "thinking" (PyStr "")) as_str with
            | inl e => inl e
            | inr t => parse_blocks rest text_content (thinking_content +:+ t) tool_calls
            end
          else if py_eq_str ty "tool_use" then
            match parse_tool_use block with
            | inl e => inl e
            | inr tc => parse_blocks rest text_content thinking_content (tool_calls ++ [tc])
            end
          else parse_blocks rest text_content thinking_content tool_calls
      end
  end.

Definition parse_response (result : PyValue) : Result LLMResponse.t :=
  let! content_blocks := py_get result "content" (PyList []) in
  let! stop_reason := py_get result "stop_reason" (PyStr "stop") in
  let! blocks := py_iter content_blocks in
  let! parsed := parse_blocks blocks "" "" [] in
  let '(text_content, thinking_content, tool_calls) := parsed in
  ret (LLMResponse.mk text_content
         (if str_truthy thinking_content then Some thinking_content else None)
         (match tool_calls with [] => None | _ :: _ => Some tool_calls end)
         stop_reason).

(** *** The offline substitute *)

Fixpoint first_user_text (messages : list Message.t) : string :=
  match messages with
  | [] => ""
  | msg :: rest =>
      if Role.eqb (Message.role msg) Role.user then Message.content msg
      else first_user_text rest
  end.

Definition last_user_text (messages : list Message.t) : string :=
  first_user_text (rev messages).

Definition has_tool_result (messages : list Message.t) (name : string) : bool :=
  existsb (fun msg =>
             Role.eqb (Message.role msg) Role.tool
             && match Message.name msg with
                | Some n => String.eqb n name
                | None => false
                end) messages.

(** The inner helper [tool_call]: bumps the counter and builds the call. *)
Definition tool_call (self : LLMClient) (name : string)
           (arguments : list (string * PyValue)) : list ToolCall.t * LLMClient :=
  let n := (_fake_call_counter self + 1)%Z in
  ([ToolCall.mk ("stub-" +:+ pretty n) "function" (FunctionCall.mk name arguments)],
   with_counter self n).

Definition _fake_response (self : LLMClient) (messages : list Message.t)
           (tools : option (list PyValue)) : LLMResponse.t * LLMClient :=
  let text := lower (last_user_text messages) in
  if contains "say 'hello, mini agent!'" text || contains "hello, mini agent" text then
    (LLMResponse.mk "Hello, Mini Agent!" None None (PyStr "stop"), self)
  else if contains "calculate 123 + 456" text && opt_list_truthy tools then
    let '(calls, self') :=
      tool_call self "calculator"
                [("operation", PyStr "add"); ("a", PyInt 123); ("b", PyInt 456)] in
    (LLMResponse.mk "" None (Some calls) (PyStr "tool_use"), self')
  else if contains "test.txt" text && contains "hello from agent" text then
    if has_tool_result messages "write_file" then
      (LLMResponse.mk "Created test.txt with the requested content." None None (PyStr "stop"), self)
    else
      let '(calls, self') :=
        tool_call self "write_file"
                  [("path", PyStr "test.txt"); ("content", PyStr "Hello from Agent!")] in
      (LLMResponse.mk "" None (Some calls) (PyStr "tool_use"), self')
  else if contains "list all files" text && contains "bash" text then
    if has_tool_result messages "bash" then
      (LLMResponse.mk "Listed the files in the workspace." None None (PyStr "stop"), self)
    else
      let '(calls, self') :=
        tool_call self "bash"
                  [("command", PyStr "ls"); ("timeout", PyInt 30);
                   ("run_in_background", PyBool false)] in
      (LLMResponse.mk "" None (Some calls) (PyStr "tool_use"), self')
  else
    let fallback :=
      if str_truthy (last_user_text messages) then last_user_text messages else "Hello!" in
    (LLMResponse.mk ("Stub response: " +:+ strip fallback) None None (PyStr "stop"), self).

(** *** The request and [generate] *)

Section Transport.

(** [http_post payload] is [client.post(...).json()]: the body the backend
    answers with, or the failure of the transport. [async_retry] is the
    decorator of [mini_agent/retry.py], applied when retries are enabled. *)
Variable http_post : PyValue -> Result PyValue.
Variable async_retry : (PyValue -> Result PyValue) -> PyValue -> Result PyValue.

(** The two hints appended to the error text; the warning sign is written
    as its UTF-8 bytes. *)
Definition hint (text : string) : string :=
  String "010" (String "010" ("⚠️  " +:+ text)).

Definition _make_api_request (self : LLMClient) (payload : PyValue) : Result PyValue :=
  let! result := http_post payload in
  let! ty := py_get result "type" PyNone in
  if py_eq_str ty "error" then
    let! error_info := py_get result "error" (PyDict []) in
    let! error_type := py_get error_info "type" PyNone in
    let! error_message := py_get error_info "message" PyNone in
    raise (Exception ("API Error (" +:+ str error_type +:+ "): " +:+ str error_message))
  else
    match result with
    | PyDict d =>
        match dict_get d "base_resp" with
        | Some base_resp =>
            let! status_code := py_get base_resp "status_code" PyNone in
            let! status_msg := py_get base_resp "status_msg" PyNone in
            if negb (py_eq_int status_code 0 || py_eq_int status_code 1000
                     || py_is_none status_code) then
              let error_msg :=
                "MiniMax API Error (code " +:+ str status_code +:+ "): " +:+ str status_msg in
              let error_msg :=
                if py_eq_int status_code 1008 then
                  error_msg +:+ hint "Insufficient account balance, please recharge on MiniMax platform"
                else if py_eq_int status_code 2013 then
                  error_msg +:+ hint ("Model '" +:+ model self +:+ "' is not supported")
                else error_msg in
              raise (Exception error_msg)
            else ret result
        | None => ret result
        end
    | _ => raise (TypeError ("argument of type '" +:+ type_name result +:+ "' is not iterable"))
    end.

Definition generate (self : LLMClient) (messages : list Message.t)
           (tools : option (list PyValue)) : Result LLMResponse.t * LLMClient :=
  if _offline self then
    let '(response, self') := _fake_response self messages tools in
    (ret response, self')
  else
    let payload := build_payload self messages tools in
    let api_call :=
      if retry_enabled self then async_retry (_make_api_request self)
      else _make_api_request self in
    (bind (api_call payload) parse_response, self).

End Transport.

(** *** Vocabulary of the properties *)

(** The status codes the request method accepts as success. *)
Definition success_code (code : PyValue) : bool :=
  py_eq_int code 0 || py_eq_int code 1000.

(** [body[outer][key]], [None] when either is missing. *)
Definition envelope_field (body : list (string * PyValue)) (outer key : string) : PyValue :=
  match dict_get body outer with
  | Some (PyDict inner) => default PyNone (dict_get inner key)
  | _ => PyNone
  end.

(** The body is a generic error envelope. *)
Definition error_envelope (body : list (string * PyValue)) : bool :=
  py_eq_str (default PyNone (dict_get body "type")) "error".

(** The body carries a status envelope whose code is neither a success code
    nor null. *)
Definition failing_status (body : list (string * PyValue)) : bool :=
  match dict_get body "base_resp" with
  | Some (PyDict _) =>
      negb (success_code (envelope_field body "base_resp" "status_code"))
      && negb (py_is_none (envelope_field body "base_resp" "status_code"))
  | _ => false
  end.

(** The call as [parse_response] rebuilds it from a tool-use segment. *)
Definition reparsed (call : ToolCall.t) : ToolCall.t :=
  ToolCall.mk (ToolCall.id call) "function"
              (FunctionCall.mk (FunctionCall.name (ToolCall.function call))
                               (FunctionCall.arguments (ToolCall.function call))).

(** The two envelopes, where the body has them, are JSON objects. *)
Definition envelope_shaped (body : list (string * PyValue)) : bool :=
  match dict_get body "error" with
  | Some (PyDict _) | None => true
  | Some _ => false
  end
  && match dict_get body "base_resp" with
     | Some (PyDict _) | None => true
     | Some _ => false
     end.

(** Further vocabulary: the roles, and the segment types the parser reads. *)
Definition is_system (msg : Message.t) : bool :=
  Role.eqb (Message.role msg) Role.system.


Definition read_segment_type (ty : PyValue) : bool :=
  py_eq_str ty "text" || py_eq_str ty "thinking" || py_eq_str ty "tool_use".

Definition is_dict (v : PyValue) : bool :=
  match v with
  | PyDict _ => true
  | _ => false
  end.

(** An API turn has the role user or assistant. *)
Definition api_role_ok (turn : PyValue) : Prop :=
  exists d, turn = PyDict d
            /\ (dict_get d "role" = Some (PyStr "user")
                \/ dict_get d "role" = Some (PyStr "assistant")).

End LLM.

(** ** The ACP bridge ([mini_agent/acp/__init__.py]) *)

Module ACP.
Import Py Schema.

(** A prompt content block: one with a [text] entry or attribute, or any
    other block, which [acp_to_text] reads as the empty string. *)
Inductive ContentBlock : Type :=
| TextBlock (text : string)
| OtherBlock.

Definition block_text (block : ContentBlock) : string :=
  match block with
  | TextBlock text => text
  | OtherBlock => ""
  end.

Definition acp_to_text (blocks : list ContentBlock) : string :=
  String.concat (String "010" "") (map block_text blocks).

(** *** [_format_tool_args] *)

(** The rendering of one value: [repr(value)], cut to 45 characters and
    three dots when longer than 48. *)
Definition render_value (value : PyValue) : string :=
  let text := repr value in
  if Nat.ltb 48 (String.length text) then substring 0 45 text +:+ "..." else text.

(** The loop over [args.items()], [parts] being the list built so far. *)
Fixpoint format_parts (items : list (string * PyValue)) (parts : list string)
  : list string :=
  match items with
  | [] => parts
  | (key, value) :: rest =>
      let parts' := parts ++ [key +:+ "=" +:+ render_value value] in
      if Nat.eqb (length parts') 3 then parts' else format_parts rest parts'
  end.

Definition _format_tool_args (args : list (string * PyValue)) : string :=
  match args with
  | [] => ""
  | _ :: _ => String.concat ", " (format_parts args [])
  end.

(** *** Session updates and the observable trace *)

Inductive ToolStatus : Type := completed | failed.

(** The four updates the bridge builds with [update_agent_thought],
    [update_agent_message], [start_tool_call] and [update_tool_call]. *)
Inductive Update : Type :=
| agent_thought (text : string)
| agent_message (text : string)
| tool_call_start (tool_call_id label kind : string) (raw_input : list (string * PyValue))
| tool_call_update (tool_call_id : string) (status : ToolStatus) (content raw_output : string).

(** What a turn does to its collaborators, in order: a notification sent to
    the client, a call of the model with the conversation it was given, an
    invocation of a tool. *)
Inductive Event : Type :=
| EvSend (session_id : string) (update : Update)
| EvGenerate (messages : list Message.t) (tool_schemas : list PyValue)
| EvExecute (name : string) (args : list (string * PyValue)).

Definition is_generate (e : Event) : bool :=
  match e with
  | EvGenerate _ _ => true
  | _ => false
  end.

Definition is_execute (e : Event) : bool :=
  match e with
  | EvExecute _ _ => true
  | _ => false
  end.

Definition is_model_output (e : Event) : bool :=
  match e with
  | EvSend _ (agent_thought _) | EvSend _ (agent_message _) => true
  | _ => false
  end.

(** Modelled from the spec: [ToolResult] of [mini_agent/tools] (success flag,
    content on success, error on failure). *)
Record ToolResult : Type := mkToolResult {
  success : bool;
  result_content : string;
  error : option string
}.

Section Bridge.

(** The world outside the bridge: the model backend (with the client's
    call counter), the state the tools act on, the connection to the ACP
    client. Every [await] hands control to the event loop, which may run
    the [cancel] handler of the session meanwhile: [cancel_delivered w]
    tells whether it did during the suspension that ended in [w]. *)
Variable W : Type.
Variable llm_generate :
  W -> list Message.t -> list PyValue -> Result LLMResponse.t * W.
Variable conn_send : W -> string -> Update -> W.
Variable cancel_delivered : W -> bool.

(** Modelled from the spec: the tool interface of [mini_agent/tools]
    (a schema for the model and an asynchronous [execute]). *)
Record Tool : Type := mkTool {
  to_schema : PyValue;
  execute : list (string * PyValue) -> W -> Result ToolResult * W
}.

(** Modelled from the spec: the fields of [mini_agent.agent.Agent] that the
    bridge uses: the conversation, the tool registry by name and the step
    bound. *)
Record Agent : Type := mkAgent {
  messages : list Message.t;
  tools : list (string * Tool);
  max_steps : Z
}.

(** [SessionState]; the MCP connections are the names of the servers. *)
Record SessionState : Type := mkSessionState {
  agent : Agent;
  mcp_connections : list string;
  cancelled : bool
}.

(** The objects a running turn reads and writes. *)
Record Turn : Type := mkTurn {
  state : SessionState;
  world : W;
  trace : list Event
}.

Definition set_cancelled (b : bool) (st : SessionState) : SessionState :=
  mkSessionState (agent st) (mcp_connections st) b.

Definition append_message (msg : Message.t) (st : SessionState) : SessionState :=
  mkSessionState
    (mkAgent (messages (agent st) ++ [msg]) (tools (agent st)) (max_steps (agent st)))
    (mcp_connections st) (cancelled st).

(** The end of a suspension in world [w], after event [ev]: a [cancel]
    notification handled meanwhile has set the flag. *)
Definition resume (t : Turn) (w : W) (ev : Event) : Turn :=
  mkTurn (if cancel_delivered w then set_cancelled true (state t) else state t)
         w (trace t ++ [ev]).

Definition _send (session_id : string) (update : Update) (t : Turn) : Turn :=
  resume t (conn_send (world t) session_id update) (EvSend session_id update).

Definition tool_message (call : ToolCall.t) (text : string) : Message.t :=
  Message.mk Role.tool text None None (Some (ToolCall.id call))
             (Some (FunctionCall.name (ToolCall.function call))).

(** The body of [for call in response.tool_calls]. *)
Definition dispatch_call (session_id : string) (t : Turn) (call : ToolCall.t) : Turn :=
  let name := FunctionCall.name (ToolCall.function call) in
  let args := FunctionCall.arguments (ToolCall.function call) in
  let arg_summary := _format_tool_args args in
  let label :=
    if str_truthy arg_summary then name +:+ "(" +:+ arg_summary +:+ ")"
    else name +:+ "()" in
  let t1 := _send session_id (tool_call_start (ToolCall.id call) label "execute" args) t in
  let '(text, status, t2) :=
    match dict_get (tools (agent (state t1))) name with
    | None => ("Unknown tool: " +:+ name, failed, t1)
    | Some tool =>
        let '(outcome, w) := execute tool args (world t1) in
        let t' := resume t1 w (EvExecute name args) in
        match outcome with
        | inr result =>
            (if success result then result_content result
             else if opt_str_truthy (error result) then opt_text (error result)
                  else "Tool execution failed",
             if success result then completed else failed,
             t')
        | inl exc => ("Tool error: " +:+ exn_text exc, failed, t')
        end
    end in
  let t3 := _send session_id (tool_call_update (ToolCall.id call) status text text) t2 in
  mkTurn (append_message (tool_message call text) (state t3)) (world t3) (trace t3).

(** One iteration of the loop of [_run_turn]: [Some reason] when the
    iteration returns, [None] when the loop goes on. *)
Definition run_step (session_id : string) (t : Turn) : option string * Turn :=
  if cancelled (state t) then (Some "cancelled", t)
  else
    let tool_schemas := map (fun kv => to_schema (snd kv)) (tools (agent (state t))) in
    let '(outcome, w) := llm_generate (world t) (messages (agent (state t))) tool_schemas in
    let t1 := resume t w (EvGenerate (messages (agent (state t))) tool_schemas) in
    match outcome with
    | inl exc =>
        (Some "refusal",
         _send session_id (agent_message ("Error: " +:+ exn_text exc)) t1)
    | inr response =>
        if cancelled (state t1) then (Some "cancelled", t1)
        else
          let t2 :=
            if opt_str_truthy (LLMResponse.thinking response)
            then _send session_id (agent_thought (opt_text (LLMResponse.thinking response))) t1
            else t1 in
          let t3 :=
            if str_truthy (LLMResponse.content response)
            then _send session_id (agent_message (LLMResponse.content response)) t2
            else t2 in
          let t4 :=
            mkTurn (append_message
                      (Message.mk Role.assistant (LLMResponse.content response)
                                  (LLMResponse.thinking response)
                                  (LLMResponse.tool_calls response) None None)
                      (state t3))
                   (world t3) (trace t3) in
          if opt_list_truthy (LLMResponse.tool_calls response) then
            (None,
             fold_left (dispatch_call session_id)
                       (default [] (LLMResponse.tool_calls response)) t4)
          else (Some "end_turn", t4)
    end.

(** [for _ in range(n): ...] followed by [return "max_turn_requests"]. *)
Fixpoint run_loop (session_id : string) (n : nat) (t : Turn) : string * Turn :=
  match n with
  | O => ("max_turn_requests", t)
  | S n' =>
      match run_step session_id t with
      | (Some reason, t') => (reason, t')
      | (None, t') => run_loop session_id n' t'
      end
  end.

Definition _run_turn (session_id : string) (t : Turn) : string * Turn :=
  run_loop session_id (Z.to_nat (max_steps (agent (state t)))) t.

(** *** The session table

    [self._sessions] maps a session id to a [SessionState] object. The
    objects live in a store addressed by references, so that two ids
    naming one object would share its conversation and its flag. *)
Record MiniMaxACPAgent : Type := mkBridge {
  _sessions : gmap string nat;
  objects : gmap nat SessionState;
  env : W;
  log : list Event
}.

(** [__init__]: no session yet. *)
Definition init (w : W) : MiniMaxACPAgent := mkBridge ∅ ∅ w [].

(** The state a session id denotes. *)
Definition session_of (self : MiniMaxACPAgent) (session_id : string)
  : option SessionState :=
  match _sessions self !! session_id with
  | Some ref => objects self !! ref
  | None => None
  end.

(** [newSession]: [uuid_hex] is [uuid4().hex], [new_agent] the object the
    [Agent] constructor returns for the tools gathered for the workspace,
    [connections] the MCP servers that connected. The [SessionState] is a
    new object. *)
Definition newSession (self : MiniMaxACPAgent) (uuid_hex : string)
           (new_agent : Agent) (connections : list string)
  : string * MiniMaxACPAgent :=
  let session_id :=
    "sess-" +:+ pretty (size (_sessions self)) +:+ "-" +:+ substring 0 8 uuid_hex in
  let ref := fresh (dom (objects self)) in
  (session_id,
   mkBridge (<[session_id := ref]> (_sessions self))
            (<[ref := mkSessionState new_agent connections false]> (objects self))
            (env self) (log self)).

Definition prompt (self : MiniMaxACPAgent) (sessionId : string)
           (blocks : list ContentBlock) : string * MiniMaxACPAgent :=
  match _sessions self !! sessionId with
  | None => ("refusal", self)
  | Some ref =>
      match objects self !! ref with
      | None => ("refusal", self) (* a reference always denotes an object *)
      | Some st =>
          let user_text := acp_to_text blocks in
          let st1 :=
            append_message (Message.mk Role.user user_text None None None None)
                           (set_cancelled false st) in
          let '(stop_reason, t) :=
            _run_turn sessionId (mkTurn st1 (env self) (log self)) in
          (stop_reason,
           mkBridge (_sessions self) (<[ref := state t]> (objects self))
                    (world t) (trace t))
      end
  end.

Definition cancel (self : MiniMaxACPAgent) (sessionId : string) : MiniMaxACPAgent :=
  match _sessions self !! sessionId with
  | None => self
  | Some ref =>
      match objects self !! ref with
      | None => self
      | Some st =>
          mkBridge (_sessions self) (<[ref := set_cancelled true st]> (objects self))
                   (env self) (log self)
      end
  end.

(** The bridges the handlers can produce from an empty one; between two
    handlers the world moves on its own. *)
Inductive reachable : MiniMaxACPAgent -> Prop :=
  | reach_init (w : W) : reachable (init w)
  | reach_env (self : MiniMaxACPAgent) (w : W) :
    reachable self ->
    reachable (mkBridge (_sessions self) (objects self) w (log self))
  | reach_newSession (self : MiniMaxACPAgent) uuid_hex new_agent connections :
    reachable self -> reachable (snd (newSession self uuid_hex new_agent connections))
  | reach_prompt (self : MiniMaxACPAgent) sessionId blocks :
    reachable self -> reachable (snd (prompt self sessionId blocks))
  | reach_cancel (self : MiniMaxACPAgent) sessionId :
    reachable self -> reachable (cancel self sessionId).

End Bridge.

Arguments to_schema {W}.
Arguments execute {W}.
Arguments messages {W}.
Arguments tools {W}.
Arguments max_steps {W}.
Arguments agent {W}.
Arguments mcp_connections {W}.
Arguments cancelled {W}.
Arguments state {W}.
Arguments world {W}.
Arguments trace {W}.
Arguments _sessions {W}.
Arguments objects {W}.
Arguments env {W}.
Arguments log {W}.
Arguments session_of {W}.
Arguments set_cancelled {W}.
Arguments append_message {W}.
Arguments tool_message : clear implicits.

(** *** Vocabulary of the properties *)

(** One rendered argument of the summary. *)
Definition render_item (kv : string * PyValue) : string :=
  fst kv +:+ "=" +:+ render_value (snd kv).

(** The notification that starts a tool call, with the label the code builds
    for a non-empty summary. *)
Definition start_update (call : ToolCall.t) : Update :=
  tool_call_start
    (ToolCall.id call)
    (FunctionCall.name (ToolCall.function call) +:+ "(" +:+
     _format_tool_args (FunctionCall.arguments (ToolCall.function call)) +:+ ")")
    "execute"
    (FunctionCall.arguments (ToolCall.function call)).

(** The notification that ends a tool call in failure. *)
Definition failed_update (call : ToolCall.t) (text : string) : Update :=
  tool_call_update (ToolCall.id call) failed text text.

(** The text the dispatch contract is said to give for a missing tool. *)
Definition stated_unknown_tool_text (name : string) : string :=
  "unknown tool " +:+ name.

(** The assistant message an iteration appends for a response. *)
Definition assistant_message (response : LLMResponse.t) : Message.t :=
  Message.mk Role.assistant (LLMResponse.content response)
             (LLMResponse.thinking response) (LLMResponse.tool_calls response)
             None None.

(** What a tool message is compared on: role, correlation id, tool name. *)
Definition correlation (m : Message.t) : Role.t * option string * option string :=
  (Message.role m, Message.tool_call_id m, Message.name m).

Definition expected_correlation (call : ToolCall.t)
  : Role.t * option string * option string :=
  (Role.tool, Some (ToolCall.id call),
   Some (FunctionCall.name (ToolCall.function call))).

(** Total length of the argument names of a mapping. *)
Definition key_lengths (items : list (string * PyValue)) : nat :=
  list_sum (map (fun kv => String.length (fst kv)) items).

Fixpoint str_repeat (c : ascii) (n : nat) : string :=
  match n with
  | O => EmptyString
  | S n' => String c (str_repeat c n')
  end.

Section Vocabulary.

Variable W : Type.
Variable llm_generate :
  W -> list Message.t -> list PyValue -> Result LLMResponse.t * W.
Variable conn_send : W -> string -> Update -> W.
Variable cancel_delivered : W -> bool.

(** The conversation of the session a turn runs on, and the schemas the
    turn presents to the model. *)
Definition conversation (t : Turn W) : list Message.t :=
  messages (agent (state t)).

Definition tool_schemas (t : Turn W) : list PyValue :=
  map (fun kv => to_schema (snd kv)) (tools (agent (state t))).

(** The turn at the start of its [k]-th iteration (counted from 0), when
    the loop gets that far. *)
Fixpoint step_state (session_id : string) (k : nat) (t : Turn W) : option (Turn W) :=
  match k with
  | O => Some t
  | S k' =>
      match run_step W llm_generate conn_send cancel_delivered session_id t with
      | (None, t') => step_state session_id k' t'
      | (Some _, _) => None
      end
  end.

(** The cancellation flag is found set at one of the two checkpoints of the
    iteration that starts in [t]: before the model call, or after a model
    call that returned. *)
Definition cancel_observed (t : Turn W) : Prop :=
  cancelled (state t) = true
  \/ exists response w,
      llm_generate (world t) (conversation t) (tool_schemas t) = (inr response, w)
      /\ cancel_delivered w = true.

(** The iteration that starts in [t] sees no cancellation, its model call
    succeeds and returns at least one tool call. *)
Definition productive_step (t : Turn W) : Prop :=
  cancelled (state t) = false
  /\ exists response w call calls,
      llm_generate (world t) (conversation t) (tool_schemas t) = (inr response, w)
      /\ cancel_delivered w = false
      /\ LLMResponse.tool_calls response = Some (call :: calls).

(** Every id of the table refers to an object of the store, and no two ids
    refer to the same object. *)
Definition separated (self : MiniMaxACPAgent W) : Prop :=
  (forall sid ref, _sessions self !! sid = Some ref -> is_Some (objects self !! ref))
  /\ (forall a b ref,
        _sessions self !! a = Some ref -> _sessions self !! b = Some ref -> a = b).

(** Number of model calls recorded in a trace. *)
Definition model_calls (evs : list Event) : nat :=
  length (List.filter is_generate evs).

End Vocabulary.

Arguments conversation {W}.
Arguments tool_schemas {W}.
Arguments separated {W}.

(** *** Further vocabulary: what a turn leaves in the trace *)

Definition is_start (e : Event) : bool :=
  match e with
  | EvSend _ (tool_call_start _ _ _ _) => true
  | _ => false
  end.

Definition is_finish (e : Event) : bool :=
  match e with
  | EvSend _ (tool_call_update _ _ _ _) => true
  | _ => false
  end.

Definition is_tool_message (m : Message.t) : bool :=
  Role.eqb (Message.role m) Role.tool.

(** How often [p] holds in a list. *)
Definition tally {A : Type} (p : A -> bool) (l : list A) : nat :=
  length (List.filter p l).

(** The four values a turn can return. *)
Definition stop_reasons : list string :=
  ["end_turn"; "refusal"; "cancelled"; "max_turn_requests"].

(** How one dispatched call ended: the status and the text reported, and
    whether a tool was run for it. *)
Record CallOutcome : Type := mkOutcome {
  outcome_status : ToolStatus;
  outcome_text : string;
  outcome_ran : bool
}.

(** The events of one dispatched call with a given outcome. *)
Definition call_events (session_id : string) (call : ToolCall.t) (o : CallOutcome)
  : list Event :=
  EvSend session_id (start_update call)
  :: (if outcome_ran o
      then [EvExecute (FunctionCall.name (ToolCall.function call))
                      (FunctionCall.arguments (ToolCall.function call))]
      else [])
  ++ [EvSend session_id
             (tool_call_update (ToolCall.id call) (outcome_status o)
                               (outcome_text o) (outcome_text o))].

(** The notifications that carry the model's output for a response. *)
Definition output_events (session_id : string) (response : LLMResponse.t) : list Event :=
  (if opt_str_truthy (LLMResponse.thinking response)
   then [EvSend session_id (agent_thought (opt_text (LLMResponse.thinking response)))]
   else [])
  ++ (if str_truthy (LLMResponse.content response)
      then [EvSend session_id (agent_message (LLMResponse.content response))]
      else []).

(** Every tool message of a conversation answers a call that an earlier
    assistant message of the conversation asked for. *)
Definition answers (m a : Message.t) : Prop :=
  Message.role a = Role.assistant
  /\ exists call, In call (default [] (Message.tool_calls a))
                  /\ Message.tool_call_id m = Some (ToolCall.id call)
                  /\ Message.name m = Some (FunctionCall.name (ToolCall.function call)).

Definition paired (msgs : list Message.t) : Prop :=
  forall i m,
    msgs !! i = Some m ->
    Message.role m = Role.tool ->
    exists j a, (j < i)%nat /\ msgs !! j = Some a /\ answers m a.

(** *** The cases of one iteration

    What an iteration of [_run_turn] returns and leaves behind, case by
    case; [run_step] is shown below to fall under exactly these. *)

Section StepCases.

Variable W : Type.
Variable llm_generate :
  W -> list Message.t -> list PyValue -> Result LLMResponse.t * W.
Variable cancel_delivered : W -> bool.

(** Whether the registry has a tool for the call. *)
Definition registered (t : Turn W) (call : ToolCall.t) : bool :=
  match dict_get (tools (agent (state t))) (FunctionCall.name (ToolCall.function call)) with
  | Some _ => true
  | None => false
  end.

Definition grown (t : Turn W) (ext : list Message.t) : Agent W :=
  mkAgent W (conversation t ++ ext) (tools (agent (state t))) (max_steps (agent (state t))).

Inductive step_case (sid : string) (t : Turn W) : option string -> Turn W -> Prop :=
| step_cancelled_before :
    cancelled (state t) = true ->
    step_case sid t (Some "cancelled") t
| step_refused exc w t' :
    cancelled (state t) = false ->
    llm_generate (world t) (conversation t) (tool_schemas t) = (inl exc, w) ->
    agent (state t') = agent (state t) ->
    trace t' = trace t ++ [EvGenerate (conversation t) (tool_schemas t);
                           EvSend sid (agent_message ("Error: " +:+ exn_text exc))] ->
    step_case sid t (Some "refusal") t'
| step_cancelled_after response w t' :
    cancelled (state t) = false ->
    llm_generate (world t) (conversation t) (tool_schemas t) = (inr response, w) ->
    cancel_delivered w = true ->
    agent (state t') = agent (state t) ->
    cancelled (state t') = true ->
    trace t' = trace t ++ [EvGenerate (conversation t) (tool_schemas t)] ->
    step_case sid t (Some "cancelled") t'
| step_end_turn response w t' :
    cancelled (state t) = false ->
    llm_generate (world t) (conversation t) (tool_schemas t) = (inr response, w) ->
    cancel_delivered w = false ->
    opt_list_truthy (LLMResponse.tool_calls response) = false ->
    agent (state t') = grown t [assistant_message response] ->
    trace t' = trace t ++ EvGenerate (conversation t) (tool_schemas t)
                       :: output_events sid response ->
    step_case sid t (Some "end_turn") t'
| step_tool_calls response w calls outcomes t' :
    cancelled (state t) = false ->
    llm_generate (world t) (conversation t) (tool_schemas t) = (inr response, w) ->
    cancel_delivered w = false ->
    LLMResponse.tool_calls response = Some calls ->
    calls <> [] ->
    length outcomes = length calls ->
    Forall2 (fun call o => outcome_ran o = registered t call) calls outcomes ->
    agent (state t')
    = grown t (assistant_message response
               :: zip_with (fun call o => tool_message call (outcome_text o)) calls outcomes) ->
    trace t' = trace t ++ EvGenerate (conversation t) (tool_schemas t)
                       :: output_events sid response
                       ++ concat (zip_with (call_events sid) calls outcomes) ->
    step_case sid t None t'.

End StepCases.

Arguments registered {W}.
Arguments grown {W}.
Arguments step_case {W}.

(** *** The form of session ids *)




(** The user message [prompt] appends. *)
Definition user_message (blocks : list ContentBlock) : Message.t :=
  Message.mk Role.user (acp_to_text blocks) None None None None.

(** *** [_load_system_prompt] and [_connect_mcp_servers] *)

(** [file_text] is the text of the configured prompt file when it is found
    and exists; [skills_meta] is what the skill loader's
    [get_skills_metadata_prompt] returns when there is a skill loader. *)
Definition _load_system_prompt (file_text : option string) (skills_meta : option string)
  : string :=
  let text := default "You are a helpful AI assistant." file_text in
  match skills_meta with
  | Some meta =>
      if str_truthy meta
      then rstrip text +:+ String "010" (String "010" "") +:+ meta
      else text
  | None => text
  end.

Fixpoint all_space (s : string) : bool :=
  match s with
  | EmptyString => true
  | String c rest => is_space c && all_space rest
  end.

Fixpoint ends_with_space (s : string) : bool :=
  match s with
  | EmptyString => false
  | String c EmptyString => is_space c
  | String _ rest => ends_with_space rest
  end.

(** [d[k] = v] on an insertion-ordered mapping. *)
Fixpoint dict_put {V : Type} (d : list (string * V)) (k : string) (v : V)
  : list (string * V) :=
  match d with
  | [] => [(k, v)]
  | (k', v') :: rest =>
      if String.eqb k' k then (k', v) :: rest else (k', v') :: dict_put rest k v
  end.

(** A requested MCP server. [server_name], [server_type] and [server_env]
    are [None] when the attribute is absent (they are read with [getattr]
    and a default); [server_args] is [None] when the attribute holds no
    arguments ([server.args or []]). *)
Record McpServer : Type := mkServer {
  server_name : option string;
  server_type : option string;
  server_command : string;
  server_args : option (list string);
  server_env : option (list (string * string))
}.

(** The arguments an [MCPServerConnection] is built with. *)
Record McpConnection : Type := mkConnection {
  conn_name : string;
  conn_command : string;
  conn_args : list string;
  conn_env : list (string * string)
}.

Definition is_stdio (server : McpServer) : bool :=
  String.eqb (default "stdio" (server_type server)) "stdio".

Definition connection_for (server : McpServer) : McpConnection :=
  mkConnection
    (default "unknown" (server_name server))
    (server_command server)
    (default [] (server_args server))
    (fold_left (fun d item => dict_put d (fst item) (snd item))
               (default [] (server_env server)) []).

Section Mcp.

Variable W : Type.

(** [await conn.connect()]: whether the server connected, with the tools it
    then provides ([conn.tools]); the call may raise. *)
Variable mcp_connect : W -> McpConnection -> Result (option (list (Tool W))) * W.

(** The loop over [servers], [tools] and [connections] being the lists
    built so far. *)
Fixpoint connect_loop (servers : list McpServer) (tools : list (Tool W))
         (connections : list McpConnection) (w : W)
  : Result (list (Tool W) * list McpConnection) * W :=
  match servers with
  | [] => (ret (tools, connections), w)
  | server :: rest =>
      if negb (is_stdio server) then connect_loop rest tools connections w
      else
        let conn := connection_for server in
        match mcp_connect w conn with
        | (inl e, w') => (inl e, w')
        | (inr (Some conn_tools), w') =>
            connect_loop rest (tools ++ conn_tools) (connections ++ [conn]) w'
        | (inr None, w') => connect_loop rest tools connections w'
        end
  end.

Definition _connect_mcp_servers (servers : list McpServer) (w : W)
  : Result (list (Tool W) * list McpConnection) * W :=
  match servers with
  | [] => (ret ([], []), w)
  | _ :: _ => connect_loop servers [] [] w
  end.

End Mcp.

End ACP.

(** ** Small worlds on which the statements below are exercised *)

Module Scenario.
Import Py Schema LLM ACP.

(** A world without state: the connection swallows the updates. *)
Definition silent_conn (w : unit) (session_id : string) (u : Update) : unit := w.
Definition never_cancel (w : unit) : bool := false.
Definition always_cancel (w : unit) : bool := true.

Definition echo_call : ToolCall.t :=
  ToolCall.mk "call-1" "function" (FunctionCall.mk "echo" [("text", PyStr "hi")]).

(** A model that asks for the [echo] tool at every step. *)
Definition asks_echo (w : unit) (messages : list Message.t) (schemas : list PyValue)
  : Result LLMResponse.t * unit :=
  (inr (LLMResponse.mk "" None (Some [echo_call]) (PyStr "tool_use")), w).

Definition echo_tool : Tool unit :=
  mkTool unit (PyDict [("name", PyStr "echo")])
         (fun args w => (inr (mkToolResult true "hi" None), w)).

Definition broken_tool : Tool unit :=
  mkTool unit (PyDict [("name", PyStr "echo")])
         (fun args w => (inl (Exception "disk full"), w)).

Definition agent_with (registry : list (string * Tool unit)) (bound : Z) : Agent unit :=
  mkAgent unit [Message.mk Role.system "You are a helpful AI assistant." None None None None]
          registry bound.

Definition turn_with (registry : list (string * Tool unit)) (bound : Z) (flag : bool)
  : Turn unit :=
  mkTurn unit (mkSessionState unit (agent_with registry bound) [] flag) tt [].

(** Bodies a backend may answer with. *)
Definition message_body : list (string * PyValue) :=
  [("id", PyStr "msg-1"); ("type", PyStr "message"); ("role", PyStr "assistant");
   ("content", PyList [PyDict [("type", PyStr "text"); ("text", PyStr "4")]]);
   ("stop_reason", PyStr "end_turn");
   ("base_resp", PyDict [("status_code", PyInt 0); ("status_msg", PyStr "")])].

Definition overloaded_body : list (string * PyValue) :=
  [("type", PyStr "error");
   ("error", PyDict [("type", PyStr "overloaded_error"); ("message", PyStr "Overloaded")])].

Definition balance_body : list (string * PyValue) :=
  [("base_resp", PyDict [("status_code", PyInt 1008);
                         ("status_msg", PyStr "insufficient balance")])].

Definition live_client : LLMClient :=
  mkLLMClient "sk-live" "https://api.minimax.io/anthropic" "MiniMax-M2" false false 0.

Definition no_retry (f : PyValue -> Result PyValue) : PyValue -> Result PyValue := f.

(** The offline substitute as the model of a bridge: the world is the
    client, whose call counter the substitute advances. *)
Definition offline_client : LLMClient :=
  mkLLMClient "TEST_KEY" "https://api.minimax.io/anthropic" "MiniMax-M2" true true 0.

Definition unreachable_backend (payload : PyValue) : Result PyValue :=
  inl (TransportError "no network").

Definition offline_generate (w : LLMClient) (messages : list Message.t)
           (schemas : list PyValue) : Result LLMResponse.t * LLMClient :=
  generate unreachable_backend no_retry w messages (Some schemas).

Definition quiet_conn (w : LLMClient) (session_id : string) (u : Update) : LLMClient := w.
Definition undisturbed (w : LLMClient) : bool := false.

Definition calculator_tool : Tool LLMClient :=
  mkTool LLMClient
         (PyDict [("name", PyStr "calculator");
                  ("description", PyStr "Perform basic arithmetic");
                  ("input_schema", PyDict [("type", PyStr "object")])])
         (fun args w => (inr (mkToolResult true "579" None), w)).

Definition write_file_tool : Tool LLMClient :=
  mkTool LLMClient
         (PyDict [("name", PyStr "write_file");
                  ("description", PyStr "Write content to a file");
                  ("input_schema", PyDict [("type", PyStr "object")])])
         (fun args w => (inr (mkToolResult true "Successfully wrote to test.txt" None), w)).

Definition calculator_args : list (string * PyValue) :=
  [("operation", PyStr "add"); ("a", PyInt 123); ("b", PyInt 456)].

Definition offline_bridge : MiniMaxACPAgent LLMClient :=
  snd (newSession LLMClient (init LLMClient offline_client) "0123456789abcdef"
                  (mkAgent LLMClient
                           [Message.mk Role.system "You are a helpful AI assistant."
                                       None None None None]
                           [("calculator", calculator_tool);
                            ("write_file", write_file_tool)] 3)
                  []).

Definition offline_prompt (text : string) : string * MiniMaxACPAgent LLMClient :=
  prompt LLMClient offline_generate quiet_conn undisturbed offline_bridge
         "sess-0-01234567" [TextBlock text].

(** What a conversation shows of its messages: the role and the ids and
    tool names of the calls asked for. *)
Definition outline (m : Message.t) : Role.t * list (string * string) :=
  (Message.role m,
   map (fun c => (ToolCall.id c, FunctionCall.name (ToolCall.function c)))
       (default [] (Message.tool_calls m))).

(** The state in which the offline turn finds itself at every iteration:
    not cancelled, the client offline, the calculator registered, the
    calculation being the last thing the user asked. *)
Definition calculating (t : Turn LLMClient) : Prop :=
  cancelled (state t) = false
  /\ _offline (world t) = true
  /\ tools (agent (state t)) = [("calculator", calculator_tool)]
  /\ lower (last_user_text (conversation t)) = "calculate 123 + 456".

(** A model whose call fails, and one that answers in plain text. *)
Definition failing_model (w : unit) (messages : list Message.t) (schemas : list PyValue)
  : Result LLMResponse.t * unit :=
  (inl (TransportError "connection refused"), w).

Definition plain_answer : LLMResponse.t :=
  LLMResponse.mk "It is 579." (Some "adding the two numbers") None (PyStr "end_turn").

Definition answers_plainly (w : unit) (messages : list Message.t) (schemas : list PyValue)
  : Result LLMResponse.t * unit :=
  (inr plain_answer, w).

(** A second call, for a tool that is not registered. *)
Definition ghost_call : ToolCall.t :=
  ToolCall.mk "call-2" "function" (FunctionCall.mk "ghost" []).

Definition asks_two (w : unit) (messages : list Message.t) (schemas : list PyValue)
  : Result LLMResponse.t * unit :=
  (inr (LLMResponse.mk "On it." None (Some [echo_call; ghost_call]) (PyStr "tool_use")), w).

(** Requested MCP servers: one over stdio that connects, one over http. *)
Definition stdio_server : McpServer :=
  mkServer (Some "files") None "npx" (Some ["-y"; "server-filesystem"])
           (Some [("HOME", "/tmp"); ("HOME", "/root")]).

Definition http_server : McpServer :=
  mkServer (Some "search") (Some "http") "" None None.

Definition connects (w : unit) (conn : McpConnection)
  : Result (option (list (Tool unit))) * unit :=
  (inr (Some [echo_tool]), w).

(** A bridge with two sessions, created one after the other. *)
Definition one_session : MiniMaxACPAgent unit :=
  snd (newSession unit (init unit tt) "0123456789abcdef"
                  (agent_with [("echo", echo_tool)] 2) []).

Definition two_sessions : MiniMaxACPAgent unit :=
  snd (newSession unit one_session "fedcba9876543210"
                  (agent_with [("echo", echo_tool)] 2) []).

End Scenario.

(** * Properties *)

Import Py Schema LLM ACP Scenario.

(** ** The turn executor *)

Section TurnExecutor.

Context {W : Type}.
Variable llm_generate :
  W -> list Message.t -> list PyValue -> Result LLMResponse.t * W.
Variable conn_send : W -> string -> Update -> W.
Variable cancel_delivered : W -> bool.

Local Abbreviation resume := (ACP.resume W cancel_delivered).
Local Abbreviation _send := (ACP._send W conn_send cancel_delivered).
Local Abbreviation dispatch_call := (ACP.dispatch_call W conn_send cancel_delivered).
Local Abbreviation run_step := (ACP.run_step W llm_generate conn_send cancel_delivered).
Local Abbreviation run_loop := (ACP.run_loop W llm_generate conn_send cancel_delivered).
Local Abbreviation _run_turn := (ACP._run_turn W llm_generate conn_send cancel_delivered).
Local Abbreviation step_state := (ACP.step_state W llm_generate conn_send cancel_delivered).
Local Abbreviation cancel_observed := (ACP.cancel_observed W llm_generate cancel_delivered).
Local Abbreviation productive_step := (ACP.productive_step W llm_generate cancel_delivered).


Lemma resume_agent (t : Turn W) w ev : agent (state (resume t w ev)) = agent (state t).
Proof. unfold ACP.resume; simpl. destruct (cancel_delivered w); reflexivity. Qed.

Lemma resume_trace (t : Turn W) w ev : trace (resume t w ev) = trace t ++ [ev].
Proof. reflexivity. Qed.

Lemma resume_cancelled (t : Turn W) w ev :
  cancelled (state (resume t w ev)) = cancelled (state t) || cancel_delivered w.
Proof.
  unfold ACP.resume; simpl. destruct (cancel_delivered w); simpl.
  - now rewrite orb_true_r.
  - now rewrite orb_false_r.
Qed.

Lemma append_message_agent m (st : SessionState W) :
  agent (append_message m st)
  = mkAgent W (messages (agent st) ++ [m]) (tools (agent st)) (max_steps (agent st)).
Proof. reflexivity. Qed.

Lemma send_agent sid u (t : Turn W) : agent (state (_send sid u t)) = agent (state t).
Proof. apply resume_agent. Qed.

Lemma send_trace sid u (t : Turn W) : trace (_send sid u t) = trace t ++ [EvSend sid u].
Proof. reflexivity. Qed.

(** One dispatched call appends one tool message for that call and leaves
    the registry and the step bound alone; it issues no model call. *)
Lemma dispatch_call_effect sid (t : Turn W) call :
  exists text evs,
    agent (state (dispatch_call sid t call))
    = mkAgent W (conversation t ++ [tool_message call text])
              (tools (agent (state t))) (max_steps (agent (state t)))
    /\ trace (dispatch_call sid t call) = trace t ++ evs
    /\ forallb (fun e => negb (is_generate e)) evs = true.
Proof.
  unfold ACP.dispatch_call, conversation.
  set (t1 := _send sid _ t).
  assert (H1 : agent (state t1) = agent (state t)) by apply send_agent.
  assert (T1 : trace t1 = trace t ++ [EvSend sid (tool_call_start (ToolCall.id call)
             (if str_truthy (_format_tool_args (FunctionCall.arguments (ToolCall.function call)))
              then FunctionCall.name (ToolCall.function call) +:+ "(" +:+
                   _format_tool_args (FunctionCall.arguments (ToolCall.function call)) +:+ ")"
              else FunctionCall.name (ToolCall.function call) +:+ "()")
             "execute" (FunctionCall.arguments (ToolCall.function call)))])
    by reflexivity.
  destruct (dict_get (tools (agent (state t1))) _) as [tl|].
  - destruct (execute tl _ (world t1)) as [outcome w].
    destruct outcome as [exc|result]; cbn [state trace];
      rewrite append_message_agent, send_agent, resume_agent, H1;
      eexists; eexists; (split; [reflexivity|]);
      rewrite send_trace, resume_trace, T1, <- !app_assoc;
      (split; [reflexivity|reflexivity]).
  - cbn [state trace]. rewrite append_message_agent, send_agent, H1.
    eexists; eexists. split; [reflexivity|].
    rewrite send_trace, T1, <- !app_assoc. split; reflexivity.
Qed.

Lemma dispatch_calls_effect sid calls : forall (t : Turn W),
  exists tool_msgs evs,
    agent (state (fold_left (dispatch_call sid) calls t))
    = mkAgent W (conversation t ++ tool_msgs)
              (tools (agent (state t))) (max_steps (agent (state t)))
    /\ map correlation tool_msgs = map expected_correlation calls
    /\ trace (fold_left (dispatch_call sid) calls t) = trace t ++ evs
    /\ forallb (fun e => negb (is_generate e)) evs = true.
Proof.
  induction calls as [|call calls IH]; intros t; simpl.
  - exists [], []. rewrite !app_nil_r. destruct t as [[[m tl ms] mc c] w tr]; simpl.
    repeat split; reflexivity.
  - destruct (dispatch_call_effect sid t call) as (text & evs & Ha & Ht & Hg).
    destruct (IH (dispatch_call sid t call)) as (msgs & evs' & Ha' & Hc & Ht' & Hg').
    exists (tool_message call text :: msgs), (evs ++ evs').
    unfold conversation in *. rewrite Ha', Ha; simpl. rewrite <- app_assoc; simpl.
    split; [reflexivity|]. split; [now rewrite Hc|].
    rewrite Ht', Ht, <- app_assoc. split; [reflexivity|].
    rewrite forallb_app, Hg, Hg'. reflexivity.
Qed.

(** The part of an iteration between the model call and the append of the
    assistant message: at most two notifications, no model call. *)
Lemma emit_output_effect sid (t : Turn W) w ev (b1 b2 : bool) u1 u2 :
  let t1 := resume t w ev in
  let t2 := if b1 then _send sid u1 t1 else t1 in
  let t3 := if b2 then _send sid u2 t2 else t2 in
  agent (state t3) = agent (state t)
  /\ exists evs, trace t3 = trace t ++ ev :: evs
                 /\ forallb (fun e => negb (is_generate e)) evs = true.
Proof.
  destruct b1, b2; cbn zeta iota;
    rewrite ?send_agent, ?resume_agent, ?send_trace, ?resume_trace, <- ?app_assoc;
    (split; [reflexivity|]); eexists; (split; [reflexivity|reflexivity]).
Qed.

(** An iteration whose model call returns tool calls, with no cancellation
    seen: the loop goes on, and the conversation has grown by the assistant
    message and one tool message per call. *)
Lemma run_step_tool_calls sid (t : Turn W) response w call calls :
  cancelled (state t) = false ->
  llm_generate (world t) (conversation t) (tool_schemas t) = (inr response, w) ->
  cancel_delivered w = false ->
  LLMResponse.tool_calls response = Some (call :: calls) ->
  exists t' tool_msgs evs,
    run_step sid t = (None, t')
    /\ agent (state t')
       = mkAgent W (conversation t ++ assistant_message response :: tool_msgs)
                 (tools (agent (state t))) (max_steps (agent (state t)))
    /\ map correlation tool_msgs = map expected_correlation (call :: calls)
    /\ trace t' = trace t ++ EvGenerate (conversation t) (tool_schemas t) :: evs
    /\ forallb (fun e => negb (is_generate e)) evs = true.
Proof.
  intros Hc Hgen Hcd Htc.
  unfold ACP.run_step. rewrite Hc.
  unfold conversation, tool_schemas in Hgen. rewrite Hgen. cbn iota.
  rewrite resume_cancelled, Hc, Hcd. cbn [orb].
  rewrite Htc. cbn [opt_list_truthy default].
  match goal with
  | |- context [fold_left _ _ ?x] => set (t4 := x)
  end.
  destruct (emit_output_effect sid t w
              (EvGenerate (messages (agent (state t)))
                          (map (fun kv => to_schema (snd kv)) (tools (agent (state t)))))
              (opt_str_truthy (LLMResponse.thinking response))
              (str_truthy (LLMResponse.content response))
              (agent_thought (opt_text (LLMResponse.thinking response)))
              (agent_message (LLMResponse.content response)))
    as (Hag & evs0 & Htr & Hng).
  cbn zeta in Hag, Htr.
  assert (Hag4 : agent (state t4)
                 = mkAgent W (messages (agent (state t)) ++ [assistant_message response])
                           (tools (agent (state t))) (max_steps (agent (state t)))).
  { subst t4. cbn [state]. rewrite append_message_agent, Hag.
    unfold assistant_message. now rewrite Htc. }
  assert (Htr4 : trace t4 = trace t ++ EvGenerate (messages (agent (state t)))
                   (map (fun kv => to_schema (snd kv)) (tools (agent (state t)))) :: evs0).
  { subst t4. cbn [trace]. exact Htr. }
  destruct (dispatch_calls_effect sid (call :: calls) t4)
    as (msgs & evs & Ha & Hcorr & Ht & Hg).
  exists (fold_left (dispatch_call sid) (call :: calls) t4), msgs, (evs0 ++ evs).
  split; [reflexivity|].
  unfold conversation in *. rewrite Ha, Hag4. cbn [messages tools max_steps].
  rewrite <- app_assoc. cbn [app].
  split; [reflexivity|]. split; [exact Hcorr|].
  rewrite Ht, Htr4, <- app_assoc. cbn [app].
  split; [reflexivity|]. rewrite forallb_app, Hng, Hg. reflexivity.
Qed.

(** An iteration that passes its first checkpoint calls the model with the
    conversation as it stands. *)
Lemma run_step_model_call sid (t : Turn W) :
  cancelled (state t) = false ->
  exists evs,
    trace (snd (run_step sid t))
    = trace t ++ EvGenerate (conversation t) (tool_schemas t) :: evs.
Proof.
  intros Hc. unfold ACP.run_step. rewrite Hc.
  fold (conversation t). fold (tool_schemas t).
  destruct (llm_generate (world t) (conversation t) (tool_schemas t)) as [outcome w].
  destruct outcome as [exc|response].
  - cbn [snd]. rewrite send_trace, resume_trace, <- app_assoc. eexists; reflexivity.
  - destruct (cancelled (state (resume t w _))).
    + cbn [snd]. rewrite resume_trace. eexists; reflexivity.
    + match goal with
      | |- context [mkTurn W (append_message ?m (state ?t3)) _ _] =>
          set (t4 := mkTurn W (append_message m (state t3)) (world t3) (trace t3))
      end.
      destruct (emit_output_effect sid t w
                  (EvGenerate (conversation t) (tool_schemas t))
                  (opt_str_truthy (LLMResponse.thinking response))
                  (str_truthy (LLMResponse.content response))
                  (agent_thought (opt_text (LLMResponse.thinking response)))
                  (agent_message (LLMResponse.content response)))
        as (_ & evs0 & Htr & _).
      cbn zeta in Htr.
      assert (Htr4 : trace t4 = trace t ++ EvGenerate (conversation t) (tool_schemas t) :: evs0)
        by exact Htr.
      destruct (opt_list_truthy (LLMResponse.tool_calls response)); cbn [snd].
      * destruct (dispatch_calls_effect sid (default [] (LLMResponse.tool_calls response)) t4)
          as (_ & evs & _ & _ & Ht & _).
        rewrite Ht, Htr4, <- app_assoc. eexists; reflexivity.
      * rewrite Htr4. eexists; reflexivity.
Qed.

Lemma run_loop_at sid k : forall (t tk : Turn W) m,
  step_state sid k t = Some tk ->
  run_loop sid (k + m) t = run_loop sid m tk.
Proof.
  induction k as [|k IH]; intros t tk m H; simpl in H.
  - now inversion H.
  - cbn [Nat.add ACP.run_loop].
    destruct (run_step sid t) as [[reason|] t']; [discriminate|].
    now apply IH.
Qed.

(** Both checkpoints end the iteration with [cancelled], the conversation
    untouched and nothing sent. *)
Lemma run_step_cancelled sid (t : Turn W) :
  cancel_observed t ->
  exists t' evs,
    run_step sid t = (Some "cancelled", t')
    /\ conversation t' = conversation t
    /\ trace t' = trace t ++ evs
    /\ forallb is_generate evs = true
    /\ forallb (fun e => negb (is_model_output e)) evs = true.
Proof.
  intros Hobs. unfold ACP.run_step.
  destruct (cancelled (state t)) eqn:Hc.
  - exists t, []. rewrite app_nil_r. repeat split; reflexivity.
  - destruct Hobs as [Hobs|(response & w & Hgen & Hcd)]; [congruence|].
    unfold conversation, tool_schemas in Hgen. rewrite Hgen. cbn iota.
    rewrite resume_cancelled, Hc, Hcd. cbn [orb].
    eexists; eexists. split; [reflexivity|].
    unfold conversation. rewrite resume_agent, resume_trace.
    repeat split; reflexivity.
Qed.

Lemma no_generate_filter (evs : list Event) :
  forallb (fun e => negb (is_generate e)) evs = true ->
  List.filter is_generate evs = [].
Proof.
  induction evs as [|e evs IH]; simpl; [reflexivity|].
  destruct (is_generate e); simpl; [discriminate|exact IH].
Qed.

(** C1 (as the code has it). In an iteration whose model response carries a
    non-empty list of tool calls, and in which the cancellation flag is not
    found set at the checkpoint after the model call, the executor goes on
    to the next iteration after appending, behind the assistant message,
    exactly one message per call, in the order of the calls, each of role
    tool with the call's id as correlation id and the call's tool name.
    No model call is issued while they are appended, and the model call of
    the next iteration is given the conversation with all of them. *)
Theorem tool_results_appended_in_order sid (t : Turn W) response w calls :
  cancelled (state t) = false ->
  llm_generate (world t) (conversation t) (tool_schemas t) = (inr response, w) ->
  cancel_delivered w = false ->
  LLMResponse.tool_calls response = Some calls ->
  calls <> [] ->
  exists t' tool_msgs evs,
    run_step sid t = (None, t')
    /\ conversation t' = conversation t ++ assistant_message response :: tool_msgs
    /\ map correlation tool_msgs = map expected_correlation calls
    /\ trace t' = trace t ++ EvGenerate (conversation t) (tool_schemas t) :: evs
    /\ forallb (fun e => negb (is_generate e)) evs = true
    /\ (forall n, run_loop sid (S n) t = run_loop sid n t')
    /\ (cancelled (state t') = false ->
        exists evs',
          trace (snd (run_step sid t'))
          = trace t' ++ EvGenerate (conversation t') (tool_schemas t') :: evs').
Proof.
  intros Hc Hgen Hcd Htc Hne.
  destruct calls as [|call calls]; [congruence|].
  destruct (run_step_tool_calls sid t response w call calls Hc Hgen Hcd Htc)
    as (t' & msgs & evs & Hstep & Hag & Hcorr & Htr & Hng).
  exists t', msgs, evs.
  split; [exact Hstep|].
  split; [unfold conversation at 1; now rewrite Hag|].
  split; [exact Hcorr|]. split; [exact Htr|]. split; [exact Hng|].
  split.
  - intros n. cbn [ACP.run_loop]. now rewrite Hstep.
  - intros Hc'. now apply run_step_model_call.
Qed.

(** C2. When the cancellation flag is found set at a checkpoint of some
    iteration of a turn (before the model call, or after the model call
    has returned), the turn ends with [cancelled]; the conversation is the
    one the iteration started with (no assistant message appended) and the
    iteration has sent nothing to the client (no thought, no message). *)
Theorem cancelled_at_checkpoint sid (t0 tk : Turn W) k :
  (k < Z.to_nat (max_steps (agent (state t0))))%nat ->
  step_state sid k t0 = Some tk ->
  cancel_observed tk ->
  exists t' evs,
    _run_turn sid t0 = ("cancelled", t')
    /\ conversation t' = conversation tk
    /\ trace t' = trace tk ++ evs
    /\ forallb is_generate evs = true
    /\ forallb (fun e => negb (is_model_output e)) evs = true.
Proof.
  intros Hk Hat Hobs.
  destruct (run_step_cancelled sid tk Hobs) as (t' & evs & Hstep & Hconv & Htr & Hg & Hq).
  exists t', evs. split; [|auto].
  unfold ACP._run_turn.
  replace (Z.to_nat (max_steps (agent (state t0))))
    with (k + S (Z.to_nat (max_steps (agent (state t0))) - S k))%nat by lia.
  rewrite (run_loop_at sid k t0 tk _ Hat).
  cbn [ACP.run_loop]. now rewrite Hstep.
Qed.

Lemma run_loop_productive sid n : forall (t : Turn W),
  (forall k tk, (k < n)%nat -> step_state sid k t = Some tk -> productive_step tk) ->
  exists t',
    run_loop sid n t = ("max_turn_requests", t')
    /\ step_state sid n t = Some t'
    /\ model_calls (trace t') = (model_calls (trace t) + n)%nat.
Proof.
  induction n as [|n IH]; intros t Hall.
  - exists t. cbn. rewrite Nat.add_0_r. auto.
  - destruct (Hall 0%nat t (Nat.lt_0_succ n) eq_refl)
      as (Hc & response & w & call & calls & Hgen & Hcd & Htc).
    destruct (run_step_tool_calls sid t response w call calls Hc Hgen Hcd Htc)
      as (t1 & msgs & evs & Hstep & _ & _ & Htr & Hng).
    destruct (IH t1) as (t' & Hloop & Hat & Hcount).
    { intros k tk Hk Hs. apply (Hall (S k) tk); [lia|].
      cbn [ACP.step_state]. now rewrite Hstep. }
    exists t'. cbn [ACP.run_loop ACP.step_state]. rewrite Hstep.
    split; [exact Hloop|]. split; [exact Hat|].
    rewrite Hcount, Htr. unfold model_calls.
    rewrite List.filter_app, length_app. cbn [List.filter is_generate].
    rewrite (no_generate_filter evs Hng). cbn [length]. lia.
Qed.

(** C3. A turn with step bound [N] in which every iteration passes both
    checkpoints and gets a response with at least one tool call runs
    exactly [N] iterations, issuing [N] model calls, and ends with
    [max_turn_requests]. *)
Theorem step_bound_exhausted sid (t0 : Turn W) (N : nat) :
  (1 <= N)%nat ->
  max_steps (agent (state t0)) = Z.of_nat N ->
  (forall k tk, (k < N)%nat -> step_state sid k t0 = Some tk -> productive_step tk) ->
  exists t',
    _run_turn sid t0 = ("max_turn_requests", t')
    /\ step_state sid N t0 = Some t'
    /\ model_calls (trace t') = (model_calls (trace t0) + N)%nat.
Proof.
  intros _ Hmax Hall. unfold ACP._run_turn. rewrite Hmax, Nat2Z.id.
  now apply run_loop_productive.
Qed.

Lemma label_always_parenthesised (name summary : string) :
  (if str_truthy summary then name +:+ "(" +:+ summary +:+ ")" else name +:+ "()")
  = name +:+ "(" +:+ summary +:+ ")".
Proof. destruct summary; reflexivity. Qed.

Lemma dispatch_call_starts sid (t : Turn W) call :
  _send sid (tool_call_start (ToolCall.id call)
               (if str_truthy (_format_tool_args (FunctionCall.arguments (ToolCall.function call)))
                then FunctionCall.name (ToolCall.function call) +:+ "(" +:+
                     _format_tool_args (FunctionCall.arguments (ToolCall.function call)) +:+ ")"
                else FunctionCall.name (ToolCall.function call) +:+ "()")
               "execute" (FunctionCall.arguments (ToolCall.function call))) t
  = _send sid (start_update call) t.
Proof. unfold start_update. now rewrite label_always_parenthesised. Qed.

(** The first thing a dispatched call does is to announce itself. *)
Lemma dispatch_call_first_event sid (t : Turn W) call :
  exists evs,
    trace (dispatch_call sid t call) = trace t ++ EvSend sid (start_update call) :: evs.
Proof.
  unfold ACP.dispatch_call. rewrite dispatch_call_starts.
  destruct (dict_get (tools (agent (state (_send sid (start_update call) t)))) _) as [tl|].
  - destruct (execute tl _ _) as [outcome w].
    destruct outcome as [exc|result]; cbv beta iota zeta; cbn [trace];
      rewrite !send_trace, resume_trace, send_trace, <- !app_assoc;
      eexists; reflexivity.
  - cbv beta iota zeta. cbn [trace]. rewrite !send_trace, <- !app_assoc.
    eexists; reflexivity.
Qed.

(** C5 (as the code has it). A call whose tool name is not in the registry
    is answered with status failed and the text [Unknown tool: <name>],
    and no tool is invoked; a tool whose [execute] raises is answered with
    status failed and the text [Tool error: <failure text>]. Either way
    one tool message with that text is appended, the remaining calls are
    dispatched, and the iteration does not end the turn. *)
Theorem failed_dispatch_contained sid (t : Turn W) call :
  let name := FunctionCall.name (ToolCall.function call) in
  let args := FunctionCall.arguments (ToolCall.function call) in
  (dict_get (tools (agent (state t))) name = None ->
     let text := "Unknown tool: " +:+ name in
     conversation (dispatch_call sid t call) = conversation t ++ [tool_message call text]
     /\ trace (dispatch_call sid t call)
        = trace t ++ [EvSend sid (start_update call); EvSend sid (failed_update call text)])
  /\ (forall the_tool exc w,
        dict_get (tools (agent (state t))) name = Some the_tool ->
        execute the_tool args (world (_send sid (start_update call) t)) = (inl exc, w) ->
        let text := "Tool error: " +:+ exn_text exc in
        conversation (dispatch_call sid t call) = conversation t ++ [tool_message call text]
        /\ trace (dispatch_call sid t call)
           = trace t ++ [EvSend sid (start_update call); EvExecute name args;
                         EvSend sid (failed_update call text)])
  /\ (forall rest,
        fold_left (dispatch_call sid) (call :: rest) t
        = fold_left (dispatch_call sid) rest (dispatch_call sid t call))
  /\ (forall t0 response w rest,
        cancelled (state t0) = false ->
        llm_generate (world t0) (conversation t0) (tool_schemas t0) = (inr response, w) ->
        cancel_delivered w = false ->
        LLMResponse.tool_calls response = Some (call :: rest) ->
        exists t', run_step sid t0 = (None, t')).
Proof.
  intros name args. split; [|split; [|split]].
  - intros Hnone text. unfold ACP.dispatch_call. rewrite dispatch_call_starts.
    fold name. rewrite send_agent, Hnone. cbv beta iota zeta.
    unfold conversation. cbn [state trace]. rewrite append_message_agent, !send_agent.
    split; [reflexivity|].
    rewrite !send_trace, <- app_assoc. reflexivity.
  - intros the_tool exc w Hsome Hexec text. unfold ACP.dispatch_call.
    rewrite dispatch_call_starts. fold name args.
    rewrite send_agent, Hsome, Hexec. cbv beta iota zeta.
    unfold conversation. cbn [state trace]. rewrite append_message_agent, send_agent, resume_agent, send_agent.
    split; [reflexivity|].
    rewrite !send_trace, resume_trace, send_trace, <- !app_assoc. reflexivity.
  - reflexivity.
  - intros t0 response w rest Hc Hgen Hcd Htc.
    destruct (run_step_tool_calls sid t0 response w call rest Hc Hgen Hcd Htc)
      as (t' & _ & _ & Hstep & _).
    now exists t'.
Qed.

End TurnExecutor.

(** ** The argument summary of a tool call *)

Section ArgumentSummary.

Lemma length_append (a b : string) :
  String.length (a +:+ b) = (String.length a + String.length b)%nat.
Proof. induction a as [|c a IH]; simpl; [reflexivity|now rewrite IH]. Qed.

Lemma append_assoc (a b c : string) : (a +:+ b) +:+ c = a +:+ (b +:+ c).
Proof.
  induction a as [|x a IH]; [reflexivity|].
  change ((String x a +:+ b) +:+ c) with (String x ((a +:+ b) +:+ c)).
  change (String x a +:+ b +:+ c) with (String x (a +:+ b +:+ c)).
  now rewrite IH.
Qed.

Lemma append_nil_r (a : string) : a +:+ "" = a.
Proof.
  induction a as [|x a IH]; [reflexivity|].
  change (String x a +:+ "") with (String x (a +:+ "")). now rewrite IH.
Qed.

Lemma length_substring_0 (n : nat) : forall s : string,
  String.length (substring 0 n s) = Nat.min n (String.length s).
Proof.
  induction n as [|n IH]; intros s.
  - destruct s; reflexivity.
  - destruct s as [|c s]; simpl; [reflexivity|now rewrite IH].
Qed.

Lemma length_str_repeat c n : String.length (str_repeat c n) = n.
Proof. induction n as [|n IH]; simpl; [reflexivity|now rewrite IH]. Qed.

(** A rendered value is the [repr], or its first 45 characters and three
    dots; it never exceeds 48 characters. *)
Lemma render_value_bound (v : PyValue) :
  (String.length (render_value v) <= 48)%nat
  /\ ((String.length (repr v) <= 48)%nat -> render_value v = repr v)
  /\ ((48 < String.length (repr v))%nat ->
      render_value v = substring 0 45 (repr v) +:+ "...").
Proof.
  unfold render_value.
  destruct (Nat.ltb_spec 48 (String.length (repr v))) as [Hlong|Hshort].
  - split; [|split].
    + rewrite length_append, length_substring_0.
      change (String.length "...") with 3%nat. lia.
    + lia.
    + reflexivity.
  - split; [|split].
    + exact Hshort.
    + reflexivity.
    + lia.
Qed.

(** The loop stops at the third part: it renders the first three items. *)
Lemma format_parts_take (items : list (string * PyValue)) : forall parts,
  (length parts < 3)%nat ->
  format_parts items parts
  = parts ++ map render_item (take (3 - length parts) items).
Proof.
  induction items as [|[key value] items IH]; intros parts Hlt.
  - rewrite take_nil. simpl. now rewrite app_nil_r.
  - cbn [format_parts].
    destruct (Nat.eqb_spec (length (parts ++ [key +:+ "=" +:+ render_value value])) 3)
      as [Heq|Hne]; rewrite length_app in *; cbn [length] in *.
    + replace (3 - length parts)%nat with 1%nat by lia. reflexivity.
    + rewrite IH by (rewrite length_app; cbn [length]; lia).
      rewrite length_app. cbn [length].
      replace (3 - length parts)%nat with (S (3 - (length parts + 1)))%nat by lia.
      cbn [take map]. rewrite <- app_assoc. reflexivity.
Qed.

Lemma format_tool_args_take (args : list (string * PyValue)) :
  _format_tool_args args = String.concat ", " (map render_item (take 3 args)).
Proof.
  destruct args as [|kv args]; [reflexivity|].
  unfold _format_tool_args. now rewrite format_parts_take by (simpl; lia).
Qed.


Lemma length_render_item kv :
  (String.length (render_item kv) <= String.length (fst kv) + 49)%nat.
Proof.
  unfold render_item. rewrite !length_append.
  destruct (render_value_bound (snd kv)) as [Hb _].
  change (String.length "=") with 1%nat. lia.
Qed.

Lemma length_concat_items (items : list (string * PyValue)) :
  (String.length (String.concat ", " (map render_item items))
   <= key_lengths items + 51 * length items - 2)%nat.
Proof.
  induction items as [|kv items IH]; [simpl; lia|].
  cbn [map String.concat].
  destruct items as [|kv' items].
  - pose proof (length_render_item kv). unfold key_lengths, list_sum.
    cbn [map fold_right length]. lia.
  - cbn [map] in *. rewrite !length_append. pose proof (length_render_item kv).
    unfold key_lengths, list_sum in *. cbn [map fold_right length] in *.
    change (String.length ", ") with 2%nat. lia.
Qed.

(** C9 (as the code has it). The label of the started event is the tool
    name followed by the summary in parentheses. The summary renders the
    first three arguments of the mapping and no more, each as [key=value];
    a value is its [repr], cut to the first 45 characters and three dots
    when the [repr] is longer than 48, so a rendered value has at most 48
    characters. Keys are rendered in full: the summary is at most 151
    characters longer than the rendered keys together. *)
Theorem argument_summary_limits {W : Type} (conn_send : W -> string -> Update -> W)
        (cancel_delivered : W -> bool) sid (t : Turn W) (call : ToolCall.t) :
  let name := FunctionCall.name (ToolCall.function call) in
  let args := FunctionCall.arguments (ToolCall.function call) in
  (exists evs,
      trace (dispatch_call W conn_send cancel_delivered sid t call)
      = trace t
        ++ EvSend sid (tool_call_start (ToolCall.id call)
                         (name +:+ "(" +:+ _format_tool_args args +:+ ")")
                         "execute" args) :: evs)
  /\ _format_tool_args args = String.concat ", " (map render_item (take 3 args))
  /\ (length (take 3 args) <= 3)%nat
  /\ (forall v,
        (String.length (render_value v) <= 48)%nat
        /\ ((String.length (repr v) <= 48)%nat -> render_value v = repr v)
        /\ ((48 < String.length (repr v))%nat ->
            render_value v = substring 0 45 (repr v) +:+ "..."))
  /\ (String.length (_format_tool_args args) <= key_lengths (take 3 args) + 151)%nat.
Proof.
  intros name args. split; [|split; [|split; [|split]]].
  - destruct (dispatch_call_first_event conn_send cancel_delivered sid t call)
      as [evs Hevs].
    exists evs. exact Hevs.
  - apply format_tool_args_take.
  - rewrite length_take. lia.
  - apply render_value_bound.
  - rewrite format_tool_args_take.
    pose proof (length_concat_items (take 3 args)) as Hlen.
    assert (length (take 3 args) <= 3)%nat by (rewrite length_take; lia).
    lia.
Qed.

(** C9, the bound as stated: no number bounds the length of the summary
    over all argument mappings, a long key makes a long summary. *)
Lemma argument_summary_unbounded :
  ~ exists bound : nat,
      forall args : list (string * PyValue),
        (String.length (_format_tool_args args) <= bound)%nat.
Proof.
  intros [bound Hbound].
  specialize (Hbound [(str_repeat "a" (S bound), PyNone)]).
  rewrite format_tool_args_take in Hbound.
  cbn [take map String.concat] in Hbound. unfold render_item in Hbound.
  cbn [fst snd] in Hbound.
  rewrite !length_append, length_str_repeat in Hbound. lia.
Qed.

End ArgumentSummary.

(** ** The model client *)

Section ModelClient.

Variable http_post : PyValue -> Result PyValue.
Variable async_retry : (PyValue -> Result PyValue) -> PyValue -> Result PyValue.

Local Abbreviation _make_api_request := (LLM._make_api_request http_post).
Local Abbreviation generate := (LLM.generate http_post async_retry).


Lemma parse_content_blocks (thinking content : string) (call : ToolCall.t) :
  parse_blocks
    (content_blocks (Message.mk Role.assistant content (Some thinking) (Some [call])
                                None None)) "" "" []
  = inr (content, thinking, [reparsed call]).
Proof. destruct thinking, content; reflexivity. Qed.

(** C6. An assistant message with thinking text, content text and one tool
    call is serialised by the conversion of [generate] into one assistant
    turn of content segments; a response body that carries these segments
    parses into a response with the same thinking text, the same content
    text and one tool call with the same id, name and arguments. *)
Theorem assistant_round_trip (thinking content : string) (call : ToolCall.t)
        (body : list (string * PyValue)) :
  let msg := Message.mk Role.assistant content (Some thinking) (Some [call]) None None in
  dict_get body "content" = Some (PyList (content_blocks msg)) ->
  convert_messages [msg]
  = (None, [PyDict [("role", PyStr "assistant");
                    ("content", PyList (content_blocks msg))]])
  /\ exists response,
       parse_response (PyDict body) = inr response
       /\ opt_text (LLMResponse.thinking response) = thinking
       /\ LLMResponse.thinking response
          = (if str_truthy thinking then Some thinking else None)
       /\ LLMResponse.content response = content
       /\ exists call',
            LLMResponse.tool_calls response = Some [call']
            /\ ToolCall.id call' = ToolCall.id call
            /\ FunctionCall.name (ToolCall.function call')
               = FunctionCall.name (ToolCall.function call)
            /\ FunctionCall.arguments (ToolCall.function call')
               = FunctionCall.arguments (ToolCall.function call).
Proof.
  intros msg Hcontent. split.
  - unfold convert_messages, convert_message. cbn [fold_left Message.role Message.thinking
      Message.tool_calls opt_list_truthy]. rewrite orb_true_r. reflexivity.
  - unfold parse_response, py_get, ret. rewrite Hcontent.
    cbn [default from_option id bind py_iter ret]. subst msg.
    rewrite parse_content_blocks. cbn [bind].
    eexists. split; [reflexivity|]. cbn [LLMResponse.thinking LLMResponse.content
      LLMResponse.tool_calls].
    split; [now destruct thinking|]. split; [reflexivity|]. split; [reflexivity|].
    exists (reparsed call). repeat split; reflexivity.
Qed.

Lemma py_get_dict (d : list (string * PyValue)) key dflt :
  py_get (PyDict d) key dflt = inr (default dflt (dict_get d key)).
Proof. reflexivity. Qed.

(** C7 (as the code has it). For a body whose [error] and [base_resp]
    entries, where it has them, are objects, the request method raises a
    descriptive exception when the body is a generic error envelope (with
    the type and the message of the error) or carries a status envelope
    whose code is neither a success code nor null (with the code and the
    status message), and returns the body unchanged otherwise. An exception
    of the request reaches the caller of [generate] as it is: the body is
    not parsed. *)
Theorem backend_errors_raised (self : LLMClient) (payload : PyValue)
        (body : list (string * PyValue)) :
  http_post payload = inr (PyDict body) ->
  envelope_shaped body = true ->
  (error_envelope body = true ->
     _make_api_request self payload
     = inl (Exception ("API Error (" +:+ str (envelope_field body "error" "type")
                       +:+ "): " +:+ str (envelope_field body "error" "message"))))
  /\ (error_envelope body = false -> failing_status body = true ->
      exists remark,
        _make_api_request self payload
        = inl (Exception ("MiniMax API Error (code "
                          +:+ str (envelope_field body "base_resp" "status_code")
                          +:+ "): "
                          +:+ str (envelope_field body "base_resp" "status_msg")
                          +:+ remark)))
  /\ (error_envelope body = false -> failing_status body = false ->
      _make_api_request self payload = inr (PyDict body))
  /\ (forall messages tools exc,
        _offline self = false -> retry_enabled self = false ->
        _make_api_request self (build_payload self messages tools) = inl exc ->
        fst (generate self messages tools) = inl exc).
Proof.
  intros Hpost Hshape.
  apply andb_true_iff in Hshape as [Herr Hbase].
  split; [|split; [|split]].
  - intros Henv. unfold LLM._make_api_request. rewrite Hpost. cbn [bind].
    rewrite py_get_dict. cbn [bind]. unfold error_envelope in Henv. rewrite Henv.
    rewrite py_get_dict. cbn [bind]. unfold envelope_field.
    destruct (dict_get body "error") as [[| | | | |inner]|]; try discriminate;
      reflexivity.
  - intros Henv Hfail. unfold LLM._make_api_request. rewrite Hpost. cbn [bind].
    rewrite py_get_dict. cbn [bind]. unfold error_envelope in Henv. rewrite Henv.
    unfold failing_status, envelope_field in *.
    destruct (dict_get body "base_resp") as [[| | | | |inner]|]; try discriminate.
    rewrite !py_get_dict. cbn [bind].
    apply andb_true_iff in Hfail as [Hns Hnn]. unfold success_code in Hns.
    apply negb_true_iff in Hns, Hnn.
    apply orb_false_iff in Hns as [H0 H1000].
    rewrite H0, H1000, Hnn. cbn [orb negb].
    destruct (py_eq_int _ 1008); [|destruct (py_eq_int _ 2013)].
    + eexists. unfold raise. rewrite !append_assoc. reflexivity.
    + eexists. unfold raise. rewrite !append_assoc. reflexivity.
    + exists "". unfold raise. now rewrite append_nil_r.
  - intros Henv Hfail. unfold LLM._make_api_request. rewrite Hpost. cbn [bind].
    rewrite py_get_dict. cbn [bind]. unfold error_envelope in Henv. rewrite Henv.
    unfold failing_status, envelope_field in *.
    destruct (dict_get body "base_resp") as [[| | | | |inner]|]; try discriminate;
      [|reflexivity].
    rewrite !py_get_dict. cbn [bind].
    apply andb_false_iff in Hfail. unfold success_code in Hfail.
    destruct (py_eq_int _ 0), (py_eq_int _ 1000), (py_is_none _);
      cbn [orb negb]; try reflexivity; destruct Hfail; discriminate.
  - intros messages tools exc Hoff Hretry Hreq. unfold LLM.generate.
    rewrite Hoff, Hretry. cbn [fst]. now rewrite Hreq.
Qed.

End ModelClient.

(** ** The offline substitute *)

Section Offline.

(** As long as the last user text asks for the calculation (and does not
    greet), and tools are offered, the substitute answers with a calculator
    call, whatever tool results the conversation already holds. *)
Lemma fake_response_calculator (self : LLMClient) messages tools :
  contains "say 'hello, mini agent!'" (lower (last_user_text messages)) = false ->
  contains "hello, mini agent" (lower (last_user_text messages)) = false ->
  contains "calculate 123 + 456" (lower (last_user_text messages)) = true ->
  opt_list_truthy tools = true ->
  fst (_fake_response self messages tools)
  = LLMResponse.mk "" None
      (Some [ToolCall.mk ("stub-" +:+ pretty (_fake_call_counter self + 1)%Z) "function"
                         (FunctionCall.mk "calculator" calculator_args)])
      (PyStr "tool_use").
Proof.
  intros Hsay Hhello Hcalc Htools. unfold _fake_response.
  rewrite Hsay, Hhello, Hcalc, Htools. reflexivity.
Qed.

Lemma fake_response_calculator_pair (self : LLMClient) messages tools :
  lower (last_user_text messages) = "calculate 123 + 456" ->
  opt_list_truthy tools = true ->
  _fake_response self messages tools
  = (LLMResponse.mk "" None
       (Some [ToolCall.mk ("stub-" +:+ pretty (_fake_call_counter self + 1)%Z) "function"
                          (FunctionCall.mk "calculator" calculator_args)])
       (PyStr "tool_use"),
     with_counter self (_fake_call_counter self + 1)%Z).
Proof.
  intros Htext Htools. unfold _fake_response. rewrite Htext, Htools. reflexivity.
Qed.

Lemma last_user_text_snoc (messages : list Message.t) (m : Message.t) :
  last_user_text (messages ++ [m])
  = if Role.eqb (Message.role m) Role.user then Message.content m
    else last_user_text messages.
Proof. unfold last_user_text. rewrite rev_app_distr. reflexivity. Qed.


Lemma calculating_step sid (t : Turn LLMClient) :
  calculating t ->
  exists t',
    run_step LLMClient offline_generate quiet_conn undisturbed sid t = (None, t')
    /\ calculating t'
    /\ model_calls (trace t') = S (model_calls (trace t)).
Proof.
  intros (Hc & Hoff & Htools & Htext).
  destruct t as [[[msgs registry bound] conns flag] w tr].
  cbn [state agent cancelled world tools conversation messages] in *.
  subst flag registry.
  eexists. split.
  - unfold ACP.run_step. cbn [state agent cancelled world tools messages map snd to_schema
      calculator_tool].
    unfold offline_generate, generate. rewrite Hoff.
    rewrite fake_response_calculator_pair by (exact Htext || reflexivity).
    reflexivity.
  - split.
    + split; [reflexivity|]. split; [exact Hoff|]. split; [reflexivity|].
      unfold conversation. cbn. fold (last_user_text ((msgs ++ [
        Message.mk Role.assistant "" None
          (Some [ToolCall.mk ("stub-" +:+ pretty (_fake_call_counter w + 1)%Z) "function"
                             (FunctionCall.mk "calculator" calculator_args)]) None None])
        ++ [tool_message
              (ToolCall.mk ("stub-" +:+ pretty (_fake_call_counter w + 1)%Z) "function"
                           (FunctionCall.mk "calculator" calculator_args)) "579"])).
      rewrite !last_user_text_snoc. exact Htext.
    + unfold model_calls. cbn. rewrite !List.filter_app, !length_app. cbn. lia.
Qed.

(** Offline, whatever the step bound, the calculation never comes to an
    end: every iteration gets the calculator call again. *)
Lemma calculating_forever sid (n : nat) : forall t : Turn LLMClient,
  calculating t ->
  exists t',
    run_loop LLMClient offline_generate quiet_conn undisturbed sid n t
    = ("max_turn_requests", t')
    /\ model_calls (trace t') = (model_calls (trace t) + n)%nat.
Proof.
  induction n as [|n IH]; intros t Hinv.
  - exists t. split; [reflexivity|lia].
  - destruct (calculating_step sid t Hinv) as (t1 & Hstep & Hinv1 & Hcount).
    destruct (IH t1 Hinv1) as (t' & Hloop & Hcount').
    exists t'. cbn [ACP.run_loop]. rewrite Hstep. split; [exact Hloop|lia].
Qed.

(** The sibling branch of the substitute: once the conversation holds the
    result of [write_file], the next step answers with a final text and the
    turn ends with [end_turn] after two model calls. *)
Lemma offline_write_file_turn :
  fst (offline_prompt "Create test.txt with the content: Hello from Agent!") = "end_turn"
  /\ model_calls
       (log (snd (offline_prompt "Create test.txt with the content: Hello from Agent!")))
     = 2%nat
  /\ option_map (fun st => map outline (messages (agent st)))
                (session_of
                   (snd (offline_prompt "Create test.txt with the content: Hello from Agent!"))
                   "sess-0-01234567")
     = Some [(Role.system, []); (Role.user, []);
             (Role.assistant, [("stub-1", "write_file")]); (Role.tool, []);
             (Role.assistant, [])].
Proof. vm_compute. repeat split; reflexivity. Qed.

(** C8 on the code. Offline, with the calculator registered and a step bound
    of 3, the prompt [calculate 123 + 456] gets a calculator call with the
    arguments add, 123, 456 at the first step, and the same call again at
    the second and at the third step: the turn ends with
    [max_turn_requests] after three model calls and three executions of
    the tool, not with [end_turn]. *)
Theorem offline_calculator_turn :
  fst (offline_prompt "calculate 123 + 456") = "max_turn_requests"
  /\ model_calls (log (snd (offline_prompt "calculate 123 + 456"))) = 3%nat
  /\ List.filter is_execute (log (snd (offline_prompt "calculate 123 + 456")))
     = [EvExecute "calculator" calculator_args;
        EvExecute "calculator" calculator_args;
        EvExecute "calculator" calculator_args]
  /\ option_map (fun st => map outline (messages (agent st)))
                (session_of (snd (offline_prompt "calculate 123 + 456")) "sess-0-01234567")
     = Some [(Role.system, []); (Role.user, []);
             (Role.assistant, [("stub-1", "calculator")]); (Role.tool, []);
             (Role.assistant, [("stub-2", "calculator")]); (Role.tool, []);
             (Role.assistant, [("stub-3", "calculator")]); (Role.tool, [])].
Proof. vm_compute. repeat split; reflexivity. Qed.

End Offline.

(** ** The session table *)

Section SessionTable.

Context {W : Type}.
Variable llm_generate :
  W -> list Message.t -> list PyValue -> Result LLMResponse.t * W.
Variable conn_send : W -> string -> Update -> W.
Variable cancel_delivered : W -> bool.

Local Abbreviation prompt := (ACP.prompt W llm_generate conn_send cancel_delivered).
Local Abbreviation reachable := (ACP.reachable W llm_generate conn_send cancel_delivered).

(** C4. For a session id that is not in the table, [prompt] answers
    [refusal] and [cancel] does nothing: the bridge (table, every session's
    conversation and flag, world and trace) is the same afterwards. *)
Theorem unknown_session_refused (self : MiniMaxACPAgent W) sid blocks :
  _sessions self !! sid = None ->
  prompt self sid blocks = ("refusal", self) /\ cancel W self sid = self.
Proof.
  intros Hnone. unfold ACP.prompt, cancel. rewrite Hnone. split; reflexivity.
Qed.

Lemma separated_update (self : MiniMaxACPAgent W) ref st w tr :
  separated self ->
  is_Some (objects self !! ref) ->
  separated (mkBridge W (_sessions self) (<[ref := st]> (objects self)) w tr).
Proof.
  intros [Hobj Hinj] Hsome. split; cbn [_sessions objects].
  - intros sid r Hr. destruct (decide (ref = r)) as [->|Hne].
    + rewrite lookup_insert_eq. eauto.
    + rewrite lookup_insert_ne by assumption. eauto.
  - exact Hinj.
Qed.

(** The handlers keep the sessions apart: [newSession] stores a new object
    under the new id, [prompt] and [cancel] write to the object of the one
    session they are called for. *)
Lemma reachable_separated (self : MiniMaxACPAgent W) :
  reachable self -> separated self.
Proof.
  induction 1 as [w|self w _ IH|self uuid_hex new_agent connections _ IH
                  |self sid blocks _ IH|self sid _ IH].
  - split; cbn [init _sessions objects]; intros *; rewrite lookup_empty; discriminate.
  - exact IH.
  - destruct IH as [Hobj Hinj]. unfold newSession. cbn [snd].
    set (sid := "sess-" +:+ _). set (ref := fresh (dom (objects self))).
    assert (Hfresh : objects self !! ref = None).
    { apply not_elem_of_dom. apply is_fresh. }
    assert (Hother : forall a r, _sessions self !! a = Some r -> r <> ref).
    { intros a r Ha ->. destruct (Hobj a ref Ha) as [x Hx]. congruence. }
    split; cbn [_sessions objects].
    + intros a r Ha. destruct (decide (sid = a)) as [->|Hne].
      * rewrite lookup_insert_eq in Ha. inversion Ha; subst r.
        rewrite lookup_insert_eq. eauto.
      * rewrite lookup_insert_ne in Ha by assumption.
        rewrite lookup_insert_ne by (intros Heq; now apply (Hother a r Ha)).
        eauto.
    + intros a b r Ha Hb.
      destruct (decide (sid = a)) as [Ea|Na], (decide (sid = b)) as [Eb|Nb].
      * congruence.
      * subst a. rewrite lookup_insert_eq in Ha. inversion Ha; subst r.
        rewrite lookup_insert_ne in Hb by assumption.
        now destruct (Hother b ref Hb).
      * subst b. rewrite lookup_insert_eq in Hb. inversion Hb; subst r.
        rewrite lookup_insert_ne in Ha by assumption.
        now destruct (Hother a ref Ha).
      * rewrite lookup_insert_ne in Ha, Hb by assumption. eauto.
  - unfold ACP.prompt.
    destruct (_sessions self !! sid) as [ref|] eqn:Hs; [|exact IH].
    destruct (objects self !! ref) as [st|] eqn:Ho; [|exact IH].
    destruct (_run_turn W llm_generate conn_send cancel_delivered sid _) as [stop t].
    cbn [snd]. apply separated_update; [exact IH|]. rewrite Ho; eauto.
  - unfold cancel.
    destruct (_sessions self !! sid) as [ref|] eqn:Hs; [|exact IH].
    destruct (objects self !! ref) as [st|] eqn:Ho; [|exact IH].
    apply separated_update; [exact IH|]. rewrite Ho; eauto.
Qed.

(** C10. A [prompt] for a session of the table writes to that session
    only: the table has the same ids afterwards, and every other id
    denotes the same state (conversation, flag, registry) as before. *)
Theorem prompt_frame (self : MiniMaxACPAgent W) sid blocks :
  reachable self ->
  is_Some (_sessions self !! sid) ->
  dom (_sessions (snd (prompt self sid blocks))) = dom (_sessions self)
  /\ forall sid', sid' <> sid ->
       session_of (snd (prompt self sid blocks)) sid' = session_of self sid'.
Proof.
  intros Hreach [ref Hs].
  destruct (reachable_separated self Hreach) as [Hobj Hinj].
  unfold ACP.prompt. rewrite Hs.
  destruct (objects self !! ref) as [st|] eqn:Ho.
  - destruct (_run_turn W llm_generate conn_send cancel_delivered sid _) as [stop t].
    cbn [snd]. split; [reflexivity|].
    intros sid' Hne. unfold session_of. cbn [_sessions objects].
    destruct (_sessions self !! sid') as [ref'|] eqn:Hs'; [|reflexivity].
    apply lookup_insert_ne. intros ->. apply Hne. now apply (Hinj sid' sid ref').
  - cbn [snd]. split; [reflexivity|]. reflexivity.
Qed.

End SessionTable.

(** ** The statements above on the worlds of [Scenario] *)

Lemma tool_results_appended_in_order_witness :
  exists t',
    run_step unit asks_echo silent_conn never_cancel "s"
             (turn_with [("echo", echo_tool)] 2 false) = (None, t')
    /\ map Message.tool_call_id (conversation t')
       = [None; None; Some "call-1"].
Proof.
  destruct (tool_results_appended_in_order asks_echo silent_conn never_cancel "s"
              (turn_with [("echo", echo_tool)] 2 false)
              (LLMResponse.mk "" None (Some [echo_call]) (PyStr "tool_use")) tt [echo_call]
              eq_refl eq_refl eq_refl eq_refl ltac:(discriminate))
    as (t' & msgs & evs & Hstep & _).
  exists t'. split; [exact Hstep|].
  vm_compute in Hstep. inversion Hstep. reflexivity.
Defined.

(** C1, without the proviso: a response with a tool call that arrives while
    the session is being cancelled is dropped at the second checkpoint, and
    no tool message is appended for its call. *)
Lemma cancelled_step_drops_tool_calls :
  exists t',
    fst (asks_echo tt (conversation (turn_with [("echo", echo_tool)] 2 false))
                   (tool_schemas (turn_with [("echo", echo_tool)] 2 false)))
    = inr (LLMResponse.mk "" None (Some [echo_call]) (PyStr "tool_use"))
    /\ run_step unit asks_echo silent_conn always_cancel "s"
                (turn_with [("echo", echo_tool)] 2 false) = (Some "cancelled", t')
    /\ conversation t' = conversation (turn_with [("echo", echo_tool)] 2 false).
Proof.
  eexists. split; [reflexivity|]. split; [vm_compute; reflexivity|reflexivity].
Qed.

Lemma cancelled_at_checkpoint_witness :
  exists t' evs,
    _run_turn unit asks_echo silent_conn always_cancel "s"
              (turn_with [("echo", echo_tool)] 2 false) = ("cancelled", t')
    /\ conversation t' = conversation (turn_with [("echo", echo_tool)] 2 false)
    /\ trace t' = [] ++ evs
    /\ forallb is_generate evs = true
    /\ forallb (fun e => negb (is_model_output e)) evs = true.
Proof.
  apply (cancelled_at_checkpoint asks_echo silent_conn always_cancel "s"
           (turn_with [("echo", echo_tool)] 2 false)
           (turn_with [("echo", echo_tool)] 2 false) 0).
  - vm_compute. lia.
  - reflexivity.
  - right. eexists; eexists. split; reflexivity.
Defined.

Lemma step_bound_exhausted_witness :
  exists t',
    _run_turn unit asks_echo silent_conn never_cancel "s"
              (turn_with [("echo", echo_tool)] 2 false) = ("max_turn_requests", t')
    /\ step_state unit asks_echo silent_conn never_cancel "s" 2
                  (turn_with [("echo", echo_tool)] 2 false) = Some t'
    /\ model_calls (trace t') = (0 + 2)%nat.
Proof.
  apply (step_bound_exhausted asks_echo silent_conn never_cancel "s"
           (turn_with [("echo", echo_tool)] 2 false) 2).
  - lia.
  - reflexivity.
  - intros k tk Hk Hs.
    destruct k as [|[|k]]; [| |lia]; vm_compute in Hs; inversion Hs; subst;
      (split; [reflexivity|]);
      exists (LLMResponse.mk "" None (Some [echo_call]) (PyStr "tool_use")), tt, echo_call, [];
      repeat split; reflexivity.
Defined.

Lemma unknown_session_refused_witness :
  prompt unit asks_echo silent_conn never_cancel two_sessions "sess-7-deadbeef"
         [TextBlock "hello"] = ("refusal", two_sessions)
  /\ cancel unit two_sessions "sess-7-deadbeef" = two_sessions.
Proof.
  apply (unknown_session_refused asks_echo silent_conn never_cancel two_sessions).
  vm_compute. reflexivity.
Defined.

Lemma prompt_frame_witness :
  dom (_sessions (snd (prompt unit asks_echo silent_conn never_cancel two_sessions
                              "sess-0-01234567" [TextBlock "hello"])))
  = dom (_sessions two_sessions)
  /\ forall sid', sid' <> "sess-0-01234567" ->
       session_of (snd (prompt unit asks_echo silent_conn never_cancel two_sessions
                               "sess-0-01234567" [TextBlock "hello"])) sid'
       = session_of two_sessions sid'.
Proof.
  apply (prompt_frame asks_echo silent_conn never_cancel two_sessions).
  - unfold two_sessions, one_session. do 2 apply reach_newSession. apply reach_init.
  - exists 0%nat. vm_compute. reflexivity.
Defined.

Lemma failed_dispatch_contained_witness :
  conversation (dispatch_call unit silent_conn never_cancel "s"
                              (turn_with [("echo", broken_tool)] 2 false) echo_call)
  = conversation (turn_with [("echo", broken_tool)] 2 false)
    ++ [tool_message echo_call "Tool error: disk full"]
  /\ conversation (dispatch_call unit silent_conn never_cancel "s"
                                 (turn_with [] 2 false) echo_call)
     = conversation (turn_with [] 2 false) ++ [tool_message echo_call "Unknown tool: echo"].
Proof.
  split.
  - apply (proj1 (proj2 (failed_dispatch_contained asks_echo silent_conn never_cancel "s"
                           (turn_with [("echo", broken_tool)] 2 false) echo_call))
             broken_tool (Exception "disk full") tt eq_refl eq_refl).
  - apply (proj1 (failed_dispatch_contained asks_echo silent_conn never_cancel "s"
                    (turn_with [] 2 false) echo_call) eq_refl).
Defined.

(** C5, the text as stated: for a tool that is not registered the appended
    message does not read [unknown tool <name>]. *)
Lemma unknown_tool_text_differs :
  dict_get (tools (agent (state (turn_with [] 2 false)))) "echo" = None
  /\ exists m,
       last (conversation (dispatch_call unit silent_conn never_cancel "s"
                                         (turn_with [] 2 false) echo_call))
       = Some m
       /\ Message.content m = "Unknown tool: echo"
       /\ Message.content m <> stated_unknown_tool_text "echo".
Proof.
  split; [reflexivity|].
  eexists. split; [vm_compute; reflexivity|].
  split; [reflexivity|]. vm_compute. discriminate.
Qed.

Lemma assistant_round_trip_witness :
  exists response,
    parse_response
      (PyDict [("content",
                PyList (content_blocks
                          (Message.mk Role.assistant "ok" (Some "plan") (Some [echo_call])
                                      None None)));
               ("stop_reason", PyStr "tool_use")])
    = inr response
    /\ LLMResponse.thinking response = Some "plan"
    /\ LLMResponse.content response = "ok"
    /\ LLMResponse.tool_calls response = Some [echo_call].
Proof.
  destruct (assistant_round_trip "plan" "ok" echo_call
              [("content",
                PyList (content_blocks
                          (Message.mk Role.assistant "ok" (Some "plan") (Some [echo_call])
                                      None None)));
               ("stop_reason", PyStr "tool_use")])
    as (_ & response & Hparse & _).
  - reflexivity.
  - exists response. split; [exact Hparse|].
    vm_compute in Hparse. inversion Hparse. repeat split; reflexivity.
Defined.

(** C7, for every body: the request method does not check that an envelope
    is an object before reading its fields. A body with a null [base_resp]
    is no error envelope and carries no status code, yet it is not returned;
    an error envelope whose [error] is a string fails without the
    descriptive text. *)
Lemma malformed_envelope_not_returned :
  error_envelope [("base_resp", PyNone)] = false
  /\ failing_status [("base_resp", PyNone)] = false
  /\ _make_api_request (fun _ => inr (PyDict [("base_resp", PyNone)])) live_client PyNone
     = inl (AttributeError "'NoneType' object has no attribute 'get'")
  /\ _make_api_request
       (fun _ => inr (PyDict [("type", PyStr "error"); ("error", PyStr "boom")]))
       live_client PyNone
     = inl (AttributeError "'str' object has no attribute 'get'").
Proof. repeat split; reflexivity. Qed.

Lemma backend_errors_raised_witness :
  _make_api_request (fun _ => inr (PyDict overloaded_body)) live_client PyNone
  = inl (Exception "API Error (overloaded_error): Overloaded")
  /\ (exists remark,
        _make_api_request (fun _ => inr (PyDict balance_body)) live_client PyNone
        = inl (Exception ("MiniMax API Error (code 1008): insufficient balance" +:+ remark)))
  /\ _make_api_request (fun _ => inr (PyDict message_body)) live_client PyNone
     = inr (PyDict message_body).
Proof.
  split; [|split].
  - exact (proj1 (backend_errors_raised (fun _ => inr (PyDict overloaded_body)) no_retry
                    live_client PyNone overloaded_body eq_refl eq_refl) eq_refl).
  - exact (proj1 (proj2 (backend_errors_raised (fun _ => inr (PyDict balance_body)) no_retry
                           live_client PyNone balance_body eq_refl eq_refl))
             eq_refl eq_refl).
  - exact (proj1 (proj2 (proj2 (backend_errors_raised (fun _ => inr (PyDict message_body))
                                  no_retry live_client PyNone message_body eq_refl eq_refl)))
             eq_refl eq_refl).
Defined.


(** * Further properties of the bridge *)

(** ** One dispatched call, one iteration *)

Section StepShape.

Context {W : Type}.
Variable llm_generate :
  W -> list Message.t -> list PyValue -> Result LLMResponse.t * W.
Variable conn_send : W -> string -> Update -> W.
Variable cancel_delivered : W -> bool.

Local Abbreviation resume := (ACP.resume W cancel_delivered).
Local Abbreviation _send := (ACP._send W conn_send cancel_delivered).
Local Abbreviation dispatch_call := (ACP.dispatch_call W conn_send cancel_delivered).
Local Abbreviation run_step := (ACP.run_step W llm_generate conn_send cancel_delivered).
Local Abbreviation run_loop := (ACP.run_loop W llm_generate conn_send cancel_delivered).
Local Abbreviation _run_turn := (ACP._run_turn W llm_generate conn_send cancel_delivered).
Local Abbreviation step_state := (ACP.step_state W llm_generate conn_send cancel_delivered).
Local Abbreviation step_case := (ACP.step_case llm_generate cancel_delivered).

(** A flag that is set stays set through a suspension. *)
Lemma resume_keeps_flag (t : Turn W) w ev :
  cancelled (state t) = true -> cancelled (state (resume t w ev)) = true.
Proof. intros H. now rewrite resume_cancelled, H. Qed.

(** What one dispatched call leaves behind, for whatever the tool does. *)
Lemma dispatch_call_outcome sid (t : Turn W) call :
  exists o,
    agent (state (dispatch_call sid t call))
    = grown t [tool_message call (outcome_text o)]
    /\ trace (dispatch_call sid t call) = trace t ++ call_events sid call o
    /\ outcome_ran o = registered t call
    /\ (outcome_ran o = false ->
        outcome_status o = failed
        /\ outcome_text o
           = "Unknown tool: " +:+ FunctionCall.name (ToolCall.function call)).
Proof.
  unfold ACP.dispatch_call, registered, grown, conversation.
  rewrite dispatch_call_starts, send_agent.
  destruct (dict_get (tools (agent (state t))) _) as [tl|].
  - destruct (execute tl _ _) as [outcome w].
    destruct outcome as [exc|result]; cbv beta iota zeta; cbn [state trace].
    + exists (mkOutcome failed ("Tool error: " +:+ exn_text exc) true).
      rewrite append_message_agent, send_agent, resume_agent, send_agent.
      rewrite !send_trace, resume_trace, send_trace, <- !app_assoc.
      repeat split; try reflexivity; discriminate.
    + exists (mkOutcome (if success result then completed else failed)
                        (if success result then result_content result
                         else if opt_str_truthy (error result) then opt_text (error result)
                              else "Tool execution failed") true).
      rewrite append_message_agent, send_agent, resume_agent, send_agent.
      rewrite !send_trace, resume_trace, send_trace, <- !app_assoc.
      repeat split; try reflexivity; discriminate.
  - cbv beta iota zeta; cbn [state trace].
    exists (mkOutcome failed ("Unknown tool: " +:+ FunctionCall.name (ToolCall.function call))
                      false).
    rewrite append_message_agent, !send_agent, !send_trace, <- !app_assoc.
    repeat split; reflexivity.
Qed.

Lemma registered_same_tools (t t' : Turn W) call :
  tools (agent (state t')) = tools (agent (state t)) ->
  registered t' call = registered t call.
Proof. intros H. unfold registered. now rewrite H. Qed.

Lemma dispatch_calls_outcome sid calls : forall t : Turn W,
  exists outcomes,
    length outcomes = length calls
    /\ Forall2 (fun call o => outcome_ran o = registered t call) calls outcomes
    /\ agent (state (fold_left (dispatch_call sid) calls t))
       = grown t (zip_with (fun call o => tool_message call (outcome_text o)) calls outcomes)
    /\ trace (fold_left (dispatch_call sid) calls t)
       = trace t ++ concat (zip_with (call_events sid) calls outcomes).
Proof.
  induction calls as [|call calls IH]; intros t.
  - exists []. cbn. unfold grown. rewrite !app_nil_r.
    destruct t as [[[m tl ms] mc c] w tr]. repeat split; constructor.
  - destruct (dispatch_call_outcome sid t call) as (o & Ha & Ht & Hr & _).
    destruct (IH (dispatch_call sid t call)) as (os & Hlen & Hreg & Ha' & Ht').
    assert (Htools : tools (agent (state (dispatch_call sid t call)))
                     = tools (agent (state t))) by now rewrite Ha.
    exists (o :: os). cbn [fold_left length zip_with concat].
    split; [now rewrite Hlen|]. split.
    + constructor; [exact Hr|].
      eapply Forall2_impl; [exact Hreg|].
      intros c o' Hc. cbn beta in Hc. rewrite Hc.
      now apply registered_same_tools.
    + split.
      * rewrite Ha'. unfold grown, conversation. rewrite Ha. cbn [messages tools max_steps].
        unfold grown, conversation. cbn [messages tools max_steps].
        now rewrite <- app_assoc.
      * rewrite Ht', Ht, <- app_assoc. reflexivity.
Qed.

(** Every iteration falls under one of the five cases. *)
Lemma run_step_case sid (t : Turn W) :
  step_case sid t (fst (run_step sid t)) (snd (run_step sid t)).
Proof.
  unfold ACP.run_step.
  destruct (cancelled (state t)) eqn:Hc; [now constructor|].
  fold (conversation t). fold (tool_schemas t).
  destruct (llm_generate (world t) (conversation t) (tool_schemas t))
    as [[exc|response] w] eqn:Hgen.
  - cbn [fst snd]. eapply step_refused; eauto.
    + now rewrite send_agent, resume_agent.
    + now rewrite send_trace, resume_trace, <- app_assoc.
  - rewrite resume_cancelled, Hc. cbn [orb].
    destruct (cancel_delivered w) eqn:Hcd.
    + cbn [fst snd]. eapply step_cancelled_after; eauto.
      * apply resume_agent.
      * now rewrite resume_cancelled, Hcd, orb_true_r.
    + set (t1 := resume t w _).
      set (t2 := if opt_str_truthy _ then _ else t1).
      set (t3 := if str_truthy _ then _ else t2).
      assert (H3 : agent (state t3) = agent (state t)
                   /\ trace t3 = trace t ++ EvGenerate (conversation t) (tool_schemas t)
                                         :: output_events sid response).
      { subst t3 t2 t1. unfold output_events.
        destruct (opt_str_truthy _), (str_truthy _);
          rewrite ?send_agent, ?resume_agent, ?send_trace, ?resume_trace, <- ?app_assoc;
          split; reflexivity. }
      destruct H3 as [Hag Htr].
      destruct (opt_list_truthy (LLMResponse.tool_calls response)) eqn:Htc; cbn [fst snd].
      * destruct (LLMResponse.tool_calls response) as [[|call calls]|] eqn:Hcalls;
          try discriminate.
        cbn [default from_option id].
        match goal with
        | |- context [fold_left _ _ ?x] => set (t4 := x)
        end.
        destruct (dispatch_calls_outcome sid (call :: calls) t4)
          as (os & Hlen & Hreg & Ha & Ht).
        assert (Hag4 : agent (state t4) = grown t [assistant_message response]).
        { subst t4. cbn [state]. rewrite append_message_agent, Hag.
          unfold assistant_message. now rewrite Hcalls. }
        eapply step_tool_calls with (calls := call :: calls) (outcomes := os);
          [exact Hc|exact Hgen|exact Hcd|exact Hcalls|discriminate|exact Hlen| | |].
        -- eapply Forall2_impl; [exact Hreg|]. intros c o Ho. cbn beta in Ho.
           rewrite Ho. apply registered_same_tools. now rewrite Hag4.
        -- rewrite Ha. unfold grown, conversation. rewrite Hag4.
           unfold grown, conversation. cbn [messages tools max_steps].
           rewrite <- app_assoc. reflexivity.
        -- rewrite Ht. subst t4. cbn [trace]. rewrite Htr, <- app_assoc. reflexivity.
      * eapply step_end_turn; eauto.
        cbn [state]. rewrite append_message_agent, Hag. reflexivity.
Qed.

End StepShape.

(** ** Whole turns *)

Section TurnProperties.

Context {W : Type}.
Variable llm_generate :
  W -> list Message.t -> list PyValue -> Result LLMResponse.t * W.
Variable conn_send : W -> string -> Update -> W.
Variable cancel_delivered : W -> bool.

Local Abbreviation dispatch_call := (ACP.dispatch_call W conn_send cancel_delivered).
Local Abbreviation run_step := (ACP.run_step W llm_generate conn_send cancel_delivered).
Local Abbreviation run_loop := (ACP.run_loop W llm_generate conn_send cancel_delivered).
Local Abbreviation _run_turn := (ACP._run_turn W llm_generate conn_send cancel_delivered).
Local Abbreviation step_state := (ACP.step_state W llm_generate conn_send cancel_delivered).
Local Abbreviation step_case := (ACP.step_case llm_generate cancel_delivered).

(** Two hypotheses on the same model call speak of the same outcome. *)
Ltac same_generate Hgen :=
  repeat match goal with
         | H : llm_generate _ _ _ = _ |- _ =>
             tryif constr_eq H Hgen then fail
             else (rewrite Hgen in H; inversion H; subst; clear H)
         end.

Lemma run_step_cases sid (t : Turn W) r t' :
  run_step sid t = (r, t') -> step_case sid t r t'.
Proof.
  intros H. pose proof (run_step_case llm_generate conn_send cancel_delivered sid t) as Hc.
  now rewrite H in Hc.
Qed.

Lemma run_turn_at sid (t0 tk : Turn W) k :
  (k < Z.to_nat (max_steps (agent (state t0))))%nat ->
  step_state sid k t0 = Some tk ->
  _run_turn sid t0
  = match run_step sid tk with
    | (Some reason, t') => (reason, t')
    | (None, t') =>
        run_loop sid (Z.to_nat (max_steps (agent (state t0))) - S k) t'
    end.
Proof.
  intros Hk Hat. unfold ACP._run_turn.
  replace (Z.to_nat (max_steps (agent (state t0))))
    with (k + S (Z.to_nat (max_steps (agent (state t0))) - S k))%nat at 1 by lia.
  rewrite (run_loop_at llm_generate conn_send cancel_delivered sid k t0 tk _ Hat).
  reflexivity.
Qed.

(** X1. When the model call of some iteration raises, the turn ends with
    [refusal]: the client is sent one message, [Error: <text of the failure>],
    and the conversation is the one the iteration started with. *)
Theorem model_failure_refuses sid (t0 tk : Turn W) k exc w :
  (k < Z.to_nat (max_steps (agent (state t0))))%nat ->
  step_state sid k t0 = Some tk ->
  cancelled (state tk) = false ->
  llm_generate (world tk) (conversation tk) (tool_schemas tk) = (inl exc, w) ->
  exists t',
    _run_turn sid t0 = ("refusal", t')
    /\ conversation t' = conversation tk
    /\ trace t' = trace tk ++ [EvGenerate (conversation tk) (tool_schemas tk);
                               EvSend sid (agent_message ("Error: " +:+ exn_text exc))].
Proof.
  intros Hk Hat Hc Hgen. rewrite (run_turn_at sid t0 tk k Hk Hat).
  destruct (run_step sid tk) as [r t'] eqn:Hstep.
  apply run_step_cases in Hstep.
  inversion Hstep; subst; same_generate Hgen; try congruence.
  exists t'. split; [reflexivity|]. unfold conversation at 1.
  match goal with H : agent (state t') = _ |- _ => rewrite H end.
  split; [reflexivity|assumption].
Qed.

(** X2. When the model answers some iteration without tool calls (none, or
    an empty list) and no cancellation is seen, the turn ends with
    [end_turn]: the assistant message is appended, the thought and the
    message are sent when they are not empty, in this order, and no tool is
    announced or run. *)
Theorem plain_response_ends_turn sid (t0 tk : Turn W) k response w :
  (k < Z.to_nat (max_steps (agent (state t0))))%nat ->
  step_state sid k t0 = Some tk ->
  cancelled (state tk) = false ->
  llm_generate (world tk) (conversation tk) (tool_schemas tk) = (inr response, w) ->
  cancel_delivered w = false ->
  opt_list_truthy (LLMResponse.tool_calls response) = false ->
  exists t',
    _run_turn sid t0 = ("end_turn", t')
    /\ conversation t' = conversation tk ++ [assistant_message response]
    /\ trace t' = trace tk ++ EvGenerate (conversation tk) (tool_schemas tk)
                          :: output_events sid response.
Proof.
  intros Hk Hat Hc Hgen Hcd Htc. rewrite (run_turn_at sid t0 tk k Hk Hat).
  destruct (run_step sid tk) as [r t'] eqn:Hstep.
  apply run_step_cases in Hstep.
  inversion Hstep; subst; same_generate Hgen; try congruence.
  - exists t'. split; [reflexivity|]. unfold conversation at 1.
    match goal with H : agent (state t') = _ |- _ => rewrite H end.
    split; [reflexivity|assumption].
  - match goal with
    | H2 : LLMResponse.tool_calls _ = Some ?cs, H3 : ?cs <> [] |- _ =>
        rewrite H2 in Htc; destruct cs; [congruence|discriminate]
    end.
Qed.

(** *** Counting in traces and conversations *)

Lemma tally_app {A : Type} (p : A -> bool) (a b : list A) :
  tally p (a ++ b) = (tally p a + tally p b)%nat.
Proof. unfold tally. now rewrite List.filter_app, length_app. Qed.

Lemma tally_output_events (p : Event -> bool) sid response :
  (forall u, p (EvSend sid (agent_thought u)) = false) ->
  (forall u, p (EvSend sid (agent_message u)) = false) ->
  tally p (output_events sid response) = 0%nat.
Proof.
  intros Ht Hm. unfold output_events, tally.
  destruct (opt_str_truthy _), (str_truthy _); cbn; rewrite ?Ht, ?Hm; reflexivity.
Qed.

Lemma tally_call_events (p : Event -> bool) (k : nat) sid calls : forall outcomes,
  length outcomes = length calls ->
  (forall call o, tally p (call_events sid call o) = k) ->
  tally p (concat (zip_with (call_events sid) calls outcomes)) = (length calls * k)%nat.
Proof.
  induction calls as [|call calls IH]; intros [|o os] Hlen Hk; try discriminate.
  - reflexivity.
  - cbn [zip_with concat length]. cbn [length] in Hlen.
    rewrite tally_app, Hk, IH by (auto; lia). lia.
Qed.

Lemma tally_start_call sid call o : tally is_start (call_events sid call o) = 1%nat.
Proof. unfold call_events, tally. destruct (outcome_ran o); reflexivity. Qed.

Lemma tally_finish_call sid call o : tally is_finish (call_events sid call o) = 1%nat.
Proof. unfold call_events, tally. destruct (outcome_ran o); reflexivity. Qed.

Lemma tally_generate_call sid call o : tally is_generate (call_events sid call o) = 0%nat.
Proof. unfold call_events, tally. destruct (outcome_ran o); reflexivity. Qed.

Lemma tally_tool_messages calls : forall outcomes : list CallOutcome,
  length outcomes = length calls ->
  tally is_tool_message
        (zip_with (fun call o => tool_message call (outcome_text o)) calls outcomes)
  = length calls.
Proof.
  induction calls as [|call calls IH]; intros [|o os] Hlen; try discriminate.
  - reflexivity.
  - cbn [zip_with length]. cbn [length] in Hlen. unfold tally in *. cbn.
    rewrite IH by lia. reflexivity.
Qed.

Lemma grown_nil (t : Turn W) : grown t [] = agent (state t).
Proof.
  unfold grown, conversation. rewrite app_nil_r. now destruct (agent (state t)).
Qed.

(** The account of one iteration: what it adds to the conversation and to
    the trace. *)
Lemma step_case_account sid (t : Turn W) r t' :
  step_case sid t r t' ->
  (exists ext evs,
      agent (state t') = grown t ext /\ trace t' = trace t ++ evs
      /\ tally is_start evs = tally is_tool_message ext
      /\ tally is_finish evs = tally is_tool_message ext
      /\ tally is_generate evs = (if cancelled (state t) then 0 else 1)%nat)
  /\ (cancelled (state t) = true -> cancelled (state t') = true).
Proof.
  intros H. inversion H; subst.
  - split; [|auto]. exists [], []. rewrite grown_nil, app_nil_r.
    match goal with Hc : cancelled _ = true |- _ => rewrite Hc end.
    repeat split; reflexivity.
  - split; [|congruence]. eexists [], _. rewrite grown_nil.
    match goal with Hc : cancelled _ = false |- _ => rewrite Hc end.
    split; [assumption|]. split; [eassumption|repeat split; reflexivity].
  - split; [|congruence]. eexists [], _. rewrite grown_nil.
    match goal with Hc : cancelled _ = false |- _ => rewrite Hc end.
    split; [assumption|]. split; [eassumption|repeat split; reflexivity].
  - split; [|congruence]. eexists _, _.
    match goal with Hc : cancelled _ = false |- _ => rewrite Hc end.
    split; [eassumption|]. split; [eassumption|].
    change (?e :: output_events sid response) with ([e] ++ output_events sid response).
    rewrite !tally_app, !tally_output_events by reflexivity.
    repeat split; reflexivity.
  - split; [|congruence]. eexists _, _.
    match goal with Hc : cancelled _ = false |- _ => rewrite Hc end.
    split; [eassumption|]. split; [eassumption|].
    change (?e :: output_events sid response ++ ?l)
      with ([e] ++ output_events sid response ++ l).
    change (assistant_message response :: ?l) with ([assistant_message response] ++ l).
    rewrite !tally_app, !tally_output_events by reflexivity.
    rewrite (tally_call_events is_start 1), (tally_call_events is_finish 1),
      (tally_call_events is_generate 0), tally_tool_messages
      by auto using tally_start_call, tally_finish_call, tally_generate_call.
    repeat split; cbn; lia.
Qed.

Lemma grown_grown (t t1 : Turn W) ext1 ext2 :
  agent (state t1) = grown t ext1 ->
  grown t1 ext2 = grown t (ext1 ++ ext2).
Proof.
  intros H. unfold grown, conversation. rewrite H. unfold grown, conversation.
  cbn [messages tools max_steps]. now rewrite app_assoc.
Qed.

(** The reason an iteration returns is one of three. *)
Lemma step_case_reason sid (t : Turn W) reason t' :
  step_case sid t (Some reason) t' ->
  reason = "cancelled" \/ reason = "refusal" \/ reason = "end_turn".
Proof. intros H. inversion H; subst; auto. Qed.

(** The account of a loop of [n] iterations. *)
Lemma run_loop_account sid n : forall t : Turn W,
  exists ext evs,
    agent (state (snd (run_loop sid n t))) = grown t ext
    /\ trace (snd (run_loop sid n t)) = trace t ++ evs
    /\ tally is_start evs = tally is_tool_message ext
    /\ tally is_finish evs = tally is_tool_message ext
    /\ (tally is_generate evs <= n)%nat
    /\ In (fst (run_loop sid n t)) stop_reasons.
Proof.
  induction n as [|n IH]; intros t.
  - exists [], []. cbn [ACP.run_loop fst snd]. rewrite grown_nil, app_nil_r.
    repeat split; cbn; auto.
  - cbn [ACP.run_loop]. destruct (run_step sid t) as [[reason|] t1] eqn:Hstep;
      apply run_step_cases in Hstep;
      destruct (step_case_account sid t _ t1 Hstep)
        as [(ext1 & evs1 & Ha1 & Ht1 & Hs1 & Hf1 & Hg1) _].
    + exists ext1, evs1. cbn [fst snd]. repeat split; auto.
      * destruct (cancelled (state t)); lia.
      * destruct (step_case_reason sid t reason t1 Hstep) as [-> | [-> | ->]]; cbn; auto.
    + destruct (IH t1) as (ext2 & evs2 & Ha2 & Ht2 & Hs2 & Hf2 & Hg2 & Hr).
      exists (ext1 ++ ext2), (evs1 ++ evs2).
      rewrite Ha2, Ht2, Ht1, (grown_grown t t1 ext1 ext2 Ha1), !tally_app, <- app_assoc.
      repeat split; auto; try lia.
      destruct (cancelled (state t)); lia.
Qed.

(** X3. A turn only appends: the conversation it leaves starts with the
    conversation it found, the tool registry and the step bound are the ones
    it found, and the trace it found is a prefix of the trace it leaves. *)
Theorem turn_only_appends sid (t : Turn W) :
  exists ext evs,
    conversation (snd (_run_turn sid t)) = conversation t ++ ext
    /\ tools (agent (state (snd (_run_turn sid t)))) = tools (agent (state t))
    /\ max_steps (agent (state (snd (_run_turn sid t)))) = max_steps (agent (state t))
    /\ trace (snd (_run_turn sid t)) = trace t ++ evs.
Proof.
  unfold ACP._run_turn.
  destruct (run_loop_account sid (Z.to_nat (max_steps (agent (state t)))) t)
    as (ext & evs & Ha & Ht & _).
  exists ext, evs. unfold conversation at 1. rewrite Ha, Ht. repeat split; reflexivity.
Qed.

(** X4. A turn returns one of the four stop reasons, and it calls the model
    at most [max_steps] times; with a step bound of zero or less it calls
    nothing and returns [max_turn_requests] at once. *)
Theorem turn_within_budget sid (t : Turn W) :
  In (fst (_run_turn sid t)) stop_reasons
  /\ (exists evs,
        trace (snd (_run_turn sid t)) = trace t ++ evs
        /\ (Z.of_nat (tally is_generate evs) <= Z.max 0 (max_steps (agent (state t))))%Z)
  /\ ((max_steps (agent (state t)) <= 0)%Z ->
      _run_turn sid t = ("max_turn_requests", t)).
Proof.
  unfold ACP._run_turn.
  destruct (run_loop_account sid (Z.to_nat (max_steps (agent (state t)))) t)
    as (ext & evs & _ & Ht & _ & _ & Hg & Hr).
  split; [exact Hr|]. split.
  - exists evs. split; [exact Ht|]. lia.
  - intros Hle. replace (Z.to_nat (max_steps (agent (state t)))) with 0%nat by lia.
    reflexivity.
Qed.

(** X5. Over a whole turn, as many tool calls are announced as are finished,
    and as many tool messages are appended to the conversation: every call is
    started once, finished once and answered once. *)
Theorem calls_started_finished_answered sid (t : Turn W) :
  exists ext evs,
    conversation (snd (_run_turn sid t)) = conversation t ++ ext
    /\ trace (snd (_run_turn sid t)) = trace t ++ evs
    /\ tally is_start evs = tally is_tool_message ext
    /\ tally is_finish evs = tally is_tool_message ext.
Proof.
  unfold ACP._run_turn.
  destruct (run_loop_account sid (Z.to_nat (max_steps (agent (state t)))) t)
    as (ext & evs & Ha & Ht & Hs & Hf & _).
  exists ext, evs. unfold conversation at 1. rewrite Ha. auto.
Qed.

(** What the stop reason of a loop tells about the state it leaves. *)
Lemma run_loop_outcome sid n : forall (t : Turn W) reason t',
  run_loop sid n t = (reason, t') ->
  (reason = "end_turn" ->
   exists m, last (conversation t') = Some m
             /\ Message.role m = Role.assistant
             /\ opt_list_truthy (Message.tool_calls m) = false)
  /\ (reason = "cancelled" -> cancelled (state t') = true)
  /\ (reason = "refusal" ->
      exists before exc,
        trace t' = before ++ [EvSend sid (agent_message ("Error: " +:+ exn_text exc))])
  /\ (reason = "max_turn_requests" ->
      exists evs, trace t' = trace t ++ evs /\ tally is_generate evs = n).
Proof.
  induction n as [|n IH]; intros t reason t' Hloop.
  - cbn in Hloop. inversion Hloop; subst.
    repeat split; try discriminate. intros _. exists []. now rewrite app_nil_r.
  - cbn [ACP.run_loop] in Hloop.
    destruct (run_step sid t) as [[r|] t1] eqn:Hstep; apply run_step_cases in Hstep.
    + inversion Hloop; subst. inversion Hstep; subst;
        (split; [|split; [|split]]); try discriminate; intros _.
      * assumption.
      * eexists _, _.
        match goal with Htr : trace t' = _ |- _ => rewrite Htr end.
        change [?a; ?b] with ([a] ++ [b]). now rewrite app_assoc.
      * assumption.
      * exists (assistant_message response). unfold conversation.
        match goal with Ha : agent (state t') = _ |- _ => rewrite Ha end.
        unfold grown. cbn [messages]. rewrite last_snoc. auto.
    + destruct (IH t1 reason t' Hloop) as (He & Hc & Hr & Hm).
      split; [exact He|]. split; [exact Hc|]. split; [exact Hr|].
      intros Hmax. destruct (Hm Hmax) as (evs2 & Ht2 & Hg2).
      destruct (step_case_account sid t _ t1 Hstep)
        as [(ext1 & evs1 & _ & Ht1 & _ & _ & Hg1) _].
      exists (evs1 ++ evs2). rewrite Ht2, Ht1, <- app_assoc, tally_app, Hg1, Hg2.
      split; [reflexivity|].
      inversion Hstep; subst.
      match goal with Hc0 : cancelled (state t) = false |- _ => now rewrite Hc0 end.
Qed.

(** X6. A turn that returns [end_turn] leaves a conversation whose last
    message is an assistant message without tool calls; a turn that returns
    [cancelled] leaves the session's flag set; a turn that returns [refusal]
    has sent an error message to the client last. *)
Theorem stop_reason_describes_state sid (t : Turn W) :
  (fst (_run_turn sid t) = "end_turn" ->
   exists m, last (conversation (snd (_run_turn sid t))) = Some m
             /\ Message.role m = Role.assistant
             /\ opt_list_truthy (Message.tool_calls m) = false)
  /\ (fst (_run_turn sid t) = "cancelled" ->
      cancelled (state (snd (_run_turn sid t))) = true)
  /\ (fst (_run_turn sid t) = "refusal" ->
      exists before exc,
        trace (snd (_run_turn sid t))
        = before ++ [EvSend sid (agent_message ("Error: " +:+ exn_text exc))]).
Proof.
  unfold ACP._run_turn.
  destruct (run_loop sid _ t) as [reason t'] eqn:Hloop. cbn [fst snd].
  destruct (run_loop_outcome sid _ t reason t' Hloop) as (He & Hc & Hr & _).
  auto.
Qed.

(** X7. A turn that returns [max_turn_requests] has called the model exactly
    [max_steps] times (no time for a bound of zero or less). *)
Theorem exhausted_turn_spent_budget sid (t : Turn W) :
  fst (_run_turn sid t) = "max_turn_requests" ->
  exists evs,
    trace (snd (_run_turn sid t)) = trace t ++ evs
    /\ tally is_generate evs = Z.to_nat (max_steps (agent (state t))).
Proof.
  unfold ACP._run_turn.
  destruct (run_loop sid _ t) as [reason t'] eqn:Hloop. cbn [fst snd].
  destruct (run_loop_outcome sid _ t reason t' Hloop) as (_ & _ & _ & Hm).
  exact Hm.
Qed.

(** X8. In an iteration that dispatches tool calls, the events come in this
    order: the model call; the thought, if any; the message, if any; then
    for each call in the order received its start, the execution when the
    tool is registered (and only then), and its end. The text of the end
    notification is the text of the tool message appended for the call. *)
Theorem step_events_in_order sid (t : Turn W) response w calls :
  cancelled (state t) = false ->
  llm_generate (world t) (conversation t) (tool_schemas t) = (inr response, w) ->
  cancel_delivered w = false ->
  LLMResponse.tool_calls response = Some calls ->
  calls <> [] ->
  exists t' outcomes,
    run_step sid t = (None, t')
    /\ length outcomes = length calls
    /\ Forall2 (fun call o => outcome_ran o = registered t call) calls outcomes
    /\ trace t'
       = trace t ++ EvGenerate (conversation t) (tool_schemas t)
                 :: output_events sid response
                 ++ concat (zip_with (call_events sid) calls outcomes)
    /\ conversation t'
       = conversation t
         ++ assistant_message response
         :: zip_with (fun call o => tool_message call (outcome_text o)) calls outcomes.
Proof.
  intros Hc Hgen Hcd Htc Hne.
  destruct (run_step sid t) as [r t'] eqn:Hstep.
  pose proof (run_step_cases sid t r t' Hstep) as Hcase.
  inversion Hcase; subst; same_generate Hgen; try congruence.
  - match goal with H : opt_list_truthy _ = false |- _ => rewrite Htc in H end.
    destruct calls; [congruence|discriminate].
  - match goal with H : LLMResponse.tool_calls _ = Some calls0 |- _ =>
      rewrite Htc in H; inversion H; subst calls0 end.
    exists t', outcomes. unfold conversation at 2.
    match goal with Ha : agent (state t') = _ |- _ => rewrite Ha end.
    repeat split; auto.
Qed.

(** X9. A registered tool that returns is reported by its result: a success
    as [completed] with its content, a failure as [failed] with its error
    text, or with [Tool execution failed] when it has no error text (none,
    or the empty string). *)
Theorem tool_result_reported sid (t : Turn W) call the_tool result w :
  dict_get (tools (agent (state t))) (FunctionCall.name (ToolCall.function call))
  = Some the_tool ->
  execute the_tool (FunctionCall.arguments (ToolCall.function call))
          (world (ACP._send W conn_send cancel_delivered sid (start_update call) t))
  = (inr result, w) ->
  exists o,
    conversation (dispatch_call sid t call)
    = conversation t ++ [tool_message call (outcome_text o)]
    /\ trace (dispatch_call sid t call) = trace t ++ call_events sid call o
    /\ outcome_ran o = true
    /\ (success result = true ->
        outcome_status o = completed /\ outcome_text o = result_content result)
    /\ (success result = false -> forall e, error result = Some e -> e <> "" ->
        outcome_status o = failed /\ outcome_text o = e)
    /\ (success result = false -> error result = None \/ error result = Some "" ->
        outcome_status o = failed /\ outcome_text o = "Tool execution failed").
Proof.
  intros Hsome Hexec.
  exists (mkOutcome (if success result then completed else failed)
                    (if success result then result_content result
                     else if opt_str_truthy (error result) then opt_text (error result)
                          else "Tool execution failed") true).
  unfold ACP.dispatch_call. rewrite dispatch_call_starts, send_agent, Hsome, Hexec.
  cbv beta iota zeta. unfold conversation. cbn [state trace].
  rewrite append_message_agent, send_agent, resume_agent, send_agent.
  rewrite !send_trace, resume_trace, send_trace, <- !app_assoc.
  cbn [outcome_status outcome_text outcome_ran].
  split; [reflexivity|]. split; [reflexivity|]. split; [reflexivity|].
  split; [|split].
  - intros ->. auto.
  - intros -> e -> Hne. destruct e; [congruence|]. auto.
  - intros -> [-> | ->]; auto.
Qed.

(** *** Tool messages answer earlier calls *)

Lemma paired_app (l ext : list Message.t) :
  paired l ->
  (forall k m, ext !! k = Some m -> Message.role m = Role.tool ->
               exists j a, (j < length l + k)%nat /\ (l ++ ext) !! j = Some a /\ answers m a) ->
  paired (l ++ ext).
Proof.
  intros Hl Hext i m Hi Hrole.
  apply lookup_app_Some in Hi as [Hi|[Hge Hi]].
  - destruct (Hl i m Hi Hrole) as (j & a & Hj & Ha & Hans).
    exists j, a. split; [exact Hj|]. split; [now apply lookup_app_l_Some|exact Hans].
  - destruct (Hext _ m Hi Hrole) as (j & a & Hj & Ha & Hans).
    exists j, a. split; [lia|]. split; [exact Ha|exact Hans].
Qed.

Lemma paired_grown_answers (l : list Message.t) response calls
      (outcomes : list CallOutcome) :
  paired l ->
  default [] (LLMResponse.tool_calls response) = calls ->
  paired (l ++ assistant_message response
            :: zip_with (fun call o => tool_message call (outcome_text o)) calls outcomes).
Proof.
  intros Hl Hcalls. apply paired_app; [exact Hl|].
  intros [|k] m Hk Hrole.
  - cbn in Hk. inversion Hk; subst m. discriminate.
  - cbn [lookup list_lookup] in Hk.
    apply lookup_zip_with_Some in Hk as (call & o & -> & Hcall & _).
    exists (length l), (assistant_message response).
    split; [lia|]. split; [apply list_lookup_middle; reflexivity|].
    split; [reflexivity|]. exists call. split.
    + cbn [assistant_message Message.tool_calls]. rewrite Hcalls.
      apply list_elem_of_In. eapply list_elem_of_lookup_2; exact Hcall.
    + split; reflexivity.
Qed.

Lemma paired_snoc (l : list Message.t) (m : Message.t) :
  paired l -> Message.role m <> Role.tool -> paired (l ++ [m]).
Proof.
  intros Hl Hm. apply paired_app; [exact Hl|].
  intros [|k] m' Hk Hrole; cbn in Hk; [|discriminate].
  inversion Hk; subst. contradiction.
Qed.

Lemma step_case_paired sid (t : Turn W) r t' :
  step_case sid t r t' -> paired (conversation t) -> paired (conversation t').
Proof.
  intros H Hp. inversion H; subst; unfold conversation at 1;
    try match goal with Ha : agent (state t') = _ |- _ => rewrite Ha end;
    try exact Hp.
  - unfold grown. cbn [messages]. apply paired_snoc; [exact Hp|discriminate].
  - unfold grown. cbn [messages]. apply paired_grown_answers; [exact Hp|].
    match goal with Hc : LLMResponse.tool_calls response = _ |- _ => now rewrite Hc end.
Qed.

Lemma run_loop_paired sid n : forall t : Turn W,
  paired (conversation t) -> paired (conversation (snd (run_loop sid n t))).
Proof.
  induction n as [|n IH]; intros t Hp; [exact Hp|].
  cbn [ACP.run_loop].
  destruct (run_step sid t) as [[reason|] t1] eqn:Hstep;
    apply run_step_cases in Hstep; cbn [snd].
  - now apply (step_case_paired sid t _ t1 Hstep).
  - apply IH. now apply (step_case_paired sid t _ t1 Hstep).
Qed.

(** X10. A turn keeps tool messages paired with their calls: if in the
    conversation it finds every tool message answers (by correlation id and
    tool name) a call of an earlier assistant message, so it is in the
    conversation it leaves. *)
Theorem turn_keeps_pairing sid (t : Turn W) :
  paired (conversation t) -> paired (conversation (snd (_run_turn sid t))).
Proof. unfold ACP._run_turn. apply run_loop_paired. Qed.

End TurnProperties.

(** ** Sessions *)

Section SessionProperties.

Context {W : Type}.
Variable llm_generate :
  W -> list Message.t -> list PyValue -> Result LLMResponse.t * W.
Variable conn_send : W -> string -> Update -> W.
Variable cancel_delivered : W -> bool.

Local Abbreviation prompt := (ACP.prompt W llm_generate conn_send cancel_delivered).
Local Abbreviation reachable := (ACP.reachable W llm_generate conn_send cancel_delivered).
Local Abbreviation _run_turn := (ACP._run_turn W llm_generate conn_send cancel_delivered).

(** X11. A [cancel] that arrives before the [prompt] is lost: the prompt
    resets the flag, so it runs exactly as if the cancel had never been
    sent. *)
Theorem cancel_before_prompt_is_lost (self : MiniMaxACPAgent W) sid blocks :
  prompt (cancel W self sid) sid blocks = prompt self sid blocks.
Proof.
  unfold cancel, ACP.prompt.
  destruct (_sessions self !! sid) as [ref|] eqn:Hs; [|now rewrite Hs].
  destruct (objects self !! ref) as [st|] eqn:Ho; [|now rewrite Hs, Ho].
  cbn [_sessions objects env log]. rewrite Hs, lookup_insert_eq.
  replace (set_cancelled false (set_cancelled true st)) with (set_cancelled false st)
    by reflexivity.
  destruct (_run_turn sid _) as [stop t]. now rewrite insert_insert_eq.
Qed.

(** X12. [cancel] for a session of the table sets the flag of that session
    and touches nothing else: its conversation and registry, the other
    sessions, the ids of the table, the world and the trace are as before;
    cancelling twice is cancelling once. *)
Theorem cancel_sets_flag_only (self : MiniMaxACPAgent W) sid st :
  reachable self ->
  session_of self sid = Some st ->
  session_of (cancel W self sid) sid = Some (set_cancelled true st)
  /\ (forall sid', sid' <> sid ->
        session_of (cancel W self sid) sid' = session_of self sid')
  /\ _sessions (cancel W self sid) = _sessions self
  /\ env (cancel W self sid) = env self
  /\ log (cancel W self sid) = log self
  /\ cancel W (cancel W self sid) sid = cancel W self sid.
Proof.
  intros Hreach Hst.
  destruct (reachable_separated llm_generate conn_send cancel_delivered self Hreach)
    as [_ Hinj].
  unfold session_of in Hst. unfold cancel at 1 2 3 4 5 7.
  destruct (_sessions self !! sid) as [ref|] eqn:Hs; [|discriminate].
  rewrite Hst. unfold session_of. cbn [_sessions objects env log].
  rewrite Hs, lookup_insert_eq.
  split; [reflexivity|]. split.
  - intros sid' Hne. destruct (_sessions self !! sid') as [ref'|] eqn:Hs'; [|reflexivity].
    apply lookup_insert_ne. intros ->. apply Hne. now apply (Hinj sid' sid ref').
  - repeat split; try reflexivity.
    unfold cancel. rewrite Hs, Hst. cbn [_sessions objects env log].
    rewrite Hs, lookup_insert_eq, insert_insert_eq. reflexivity.
Qed.

(** X13. [prompt] for a session of the table returns one of the four stop
    reasons and leaves that session with the conversation it had, followed
    by the user message made of the prompt's text blocks, followed by what
    the turn appended; the registry and the step bound are unchanged, and
    tool messages stay paired with their calls. *)
Theorem prompt_appends_user_message (self : MiniMaxACPAgent W) sid blocks st :
  session_of self sid = Some st ->
  exists st' ext,
    session_of (snd (prompt self sid blocks)) sid = Some st'
    /\ messages (agent st') = messages (agent st) ++ user_message blocks :: ext
    /\ tools (agent st') = tools (agent st)
    /\ max_steps (agent st') = max_steps (agent st)
    /\ In (fst (prompt self sid blocks)) stop_reasons
    /\ (paired (messages (agent st)) -> paired (messages (agent st'))).
Proof.
  intros Hst. unfold session_of in Hst. unfold ACP.prompt, session_of.
  destruct (_sessions self !! sid) as [ref|] eqn:Hs; [|discriminate].
  rewrite Hst.
  set (t0 := mkTurn W (append_message (Message.mk Role.user (acp_to_text blocks)
                                         None None None None)
                                      (set_cancelled false st)) (env self) (log self)).
  destruct (run_loop_account llm_generate conn_send cancel_delivered sid
              (Z.to_nat (max_steps (agent (state t0)))) t0)
    as (ext & evs & Ha & _ & _ & _ & _ & Hreason).
  pose proof (run_loop_paired llm_generate conn_send cancel_delivered sid
                (Z.to_nat (max_steps (agent (state t0)))) t0) as Hpair.
  assert (Hconv : conversation (snd (_run_turn sid t0)) = conversation t0 ++ ext)
    by (unfold ACP._run_turn, conversation; now rewrite Ha).
  assert (Htools : tools (agent (state (snd (_run_turn sid t0)))) = tools (agent (state t0)))
    by (unfold ACP._run_turn; now rewrite Ha).
  assert (Hmax : max_steps (agent (state (snd (_run_turn sid t0))))
                 = max_steps (agent (state t0)))
    by (unfold ACP._run_turn; now rewrite Ha).
  change (In (fst (_run_turn sid t0)) stop_reasons) in Hreason.
  change (paired (conversation t0) -> paired (conversation (snd (_run_turn sid t0))))
    in Hpair.
  clear Ha.
  destruct (_run_turn sid t0) as [stop t]. cbn [fst snd _sessions objects] in *.
  rewrite Hs, lookup_insert_eq.
  exists (state t), ext.
  split; [reflexivity|]. unfold conversation in *. cbn [state agent messages tools max_steps
    append_message set_cancelled t0] in *.
  split; [now rewrite Hconv, <- app_assoc|]. repeat split; auto.
  intros Hp. apply Hpair. apply paired_snoc; [exact Hp|discriminate].
Qed.

(** *** Session ids are never reused *)




Lemma append_cons (c : ascii) (a b : string) : String c a +:+ b = String c (a +:+ b).
Proof. reflexivity. Qed.






End SessionProperties.

(** ** The wire format of the model client *)

Section WireFormat.

(** The parser works through a list of segments from left to right. *)
Lemma parse_blocks_app (b1 : list PyValue) : forall b2 text thinking calls,
  parse_blocks (b1 ++ b2) text thinking calls
  = match parse_blocks b1 text thinking calls with
    | inl e => inl e
    | inr (text', thinking', calls') => parse_blocks b2 text' thinking' calls'
    end.
Proof.
  induction b1 as [|block b1 IH]; intros b2 text thinking calls; [reflexivity|].
  cbn [app parse_blocks].
  destruct (py_get block "type" PyNone) as [e|ty]; [reflexivity|].
  destruct (py_eq_str ty "text").
  { destruct (bind (py_get block "text" (PyStr "")) as_str); [reflexivity|apply IH]. }
  destruct (py_eq_str ty "thinking").
  { destruct (bind (py_get block "thinking" (PyStr "")) as_str); [reflexivity|apply IH]. }
  destruct (py_eq_str ty "tool_use").
  { destruct (parse_tool_use block); [reflexivity|apply IH]. }
  apply IH.
Qed.

Lemma parse_tool_use_blocks (calls : list ToolCall.t) : forall text thinking acc,
  parse_blocks (map tool_use_block calls) text thinking acc
  = inr (text, thinking, acc ++ map reparsed calls).
Proof.
  induction calls as [|call calls IH]; intros text thinking acc.
  - cbn. now rewrite app_nil_r.
  - cbn [map]. change (tool_use_block call :: ?l) with ([tool_use_block call] ++ l).
    rewrite parse_blocks_app. cbn. rewrite IH, <- app_assoc. reflexivity.
Qed.

(** X15. Round trip for any assistant message, with any number of tool
    calls and with or without thinking: the segments [generate] builds for it
    parse back into its content text, its thinking text (an empty one as
    absent) and its tool calls, in order, with their ids, names and
    arguments (no call as absent). *)
Theorem segments_round_trip (msg : Message.t) (body : list (string * PyValue)) :
  dict_get body "content" = Some (PyList (content_blocks msg)) ->
  exists response,
    parse_response (PyDict body) = inr response
    /\ LLMResponse.content response = Message.content msg
    /\ LLMResponse.thinking response
       = (if opt_str_truthy (Message.thinking msg) then Message.thinking msg else None)
    /\ LLMResponse.tool_calls response
       = (if opt_list_truthy (Message.tool_calls msg)
          then Some (map reparsed (default [] (Message.tool_calls msg)))
          else None)
    /\ LLMResponse.finish_reason response
       = default (PyStr "stop") (dict_get body "stop_reason").
Proof.
  intros Hcontent. unfold parse_response, py_get, ret. rewrite Hcontent.
  cbn [default from_option id bind py_iter ret].
  assert (Hparse : parse_blocks (content_blocks msg) "" "" []
                   = inr (Message.content msg,
                          if opt_str_truthy (Message.thinking msg)
                          then opt_text (Message.thinking msg) else "",
                          if opt_list_truthy (Message.tool_calls msg)
                          then map reparsed (default [] (Message.tool_calls msg))
                          else [])).
  { unfold content_blocks. rewrite !parse_blocks_app.
    destruct (Message.thinking msg) as [[|c th]|]; cbn [opt_str_truthy str_truthy];
      destruct (Message.content msg) as [|c' ct]; cbn [str_truthy];
      destruct (Message.tool_calls msg) as [[|call calls]|];
      cbn [opt_list_truthy default from_option id];
      cbn -[tool_use_block map reparsed]; rewrite ?parse_tool_use_blocks; reflexivity. }
  rewrite Hparse. cbn [bind]. eexists. split; [reflexivity|].
  cbn [LLMResponse.content LLMResponse.thinking LLMResponse.tool_calls
       LLMResponse.finish_reason].
  split; [reflexivity|]. split.
  - destruct (Message.thinking msg) as [[|c th]|]; reflexivity.
  - split; [|reflexivity].
    destruct (Message.tool_calls msg) as [[|call calls]|]; reflexivity.
Qed.

(** X16. A segment whose type the parser does not read (anything but text,
    thinking and tool_use, a missing type included) is dropped: the response
    is the one parsed without it. *)
Theorem other_segments_ignored (body body' : list (string * PyValue))
        (before after : list PyValue) (segment : list (string * PyValue)) :
  dict_get body "content" = Some (PyList (before ++ PyDict segment :: after)) ->
  dict_get body' "content" = Some (PyList (before ++ after)) ->
  dict_get body "stop_reason" = dict_get body' "stop_reason" ->
  read_segment_type (default PyNone (dict_get segment "type")) = false ->
  parse_response (PyDict body) = parse_response (PyDict body').
Proof.
  intros Hc Hc' Hstop Hty. unfold parse_response, py_get, ret.
  rewrite Hc, Hc', Hstop. cbn [default from_option id bind py_iter ret].
  rewrite !parse_blocks_app.
  destruct (parse_blocks before "" "" []) as [e|[[text thinking] calls]]; [reflexivity|].
  cbn [parse_blocks py_get ret]. unfold read_segment_type in Hty.
  apply orb_false_iff in Hty as [Hty Htool]. apply orb_false_iff in Hty as [Htext Hthink].
  now rewrite Htext, Hthink, Htool.
Qed.

(** X17. A body without a content entry, or with an empty list of segments,
    gives the empty response: empty content, no thinking, no tool calls; the
    finish reason is the body's stop_reason, [stop] when it has none. *)
Theorem empty_body_parses_empty (body : list (string * PyValue)) :
  dict_get body "content" = None \/ dict_get body "content" = Some (PyList []) ->
  parse_response (PyDict body)
  = inr (LLMResponse.mk "" None None (default (PyStr "stop") (dict_get body "stop_reason"))).
Proof.
  intros [H|H]; unfold parse_response, py_get, ret; rewrite H; reflexivity.
Qed.

Lemma parse_blocks_fails (blocks : list PyValue) (block : PyValue) :
  In block blocks -> is_dict block = false ->
  forall text thinking calls, exists e, parse_blocks blocks text thinking calls = inl e.
Proof.
  induction blocks as [|b blocks IH]; intros Hin Hnd text thinking calls; [destruct Hin|].
  destruct Hin as [->|Hin].
  - destruct block; try discriminate; cbn; eauto.
  - cbn [parse_blocks].
    destruct (py_get b "type" PyNone) as [e|ty]; [eauto|].
    destruct (py_eq_str ty "text").
    { destruct (bind (py_get b "text" (PyStr "")) as_str); eauto. }
    destruct (py_eq_str ty "thinking").
    { destruct (bind (py_get b "thinking" (PyStr "")) as_str); eauto. }
    destruct (py_eq_str ty "tool_use").
    { destruct (parse_tool_use b); eauto. }
    eauto.
Qed.

(** X18. There is no partial response: when one of the segments of the body
    is not an object, or when the content entry is null, a number or a
    boolean, parsing raises and no response is built. *)
Theorem malformed_content_raises (body : list (string * PyValue)) :
  (forall blocks block,
      dict_get body "content" = Some (PyList blocks) ->
      In block blocks -> is_dict block = false ->
      exists e, parse_response (PyDict body) = inl e)
  /\ (forall v,
        dict_get body "content" = Some v ->
        match v with
        | PyNone | PyBool _ | PyInt _ => True
        | _ => False
        end ->
        parse_response (PyDict body)
        = inl (TypeError ("'" +:+ type_name v +:+ "' object is not iterable"))).
Proof.
  split.
  - intros blocks block Hc Hin Hnd. unfold parse_response, py_get, ret. rewrite Hc.
    cbn [default from_option id bind py_iter ret].
    destruct (parse_blocks_fails blocks block Hin Hnd "" "" []) as [e ->].
    eexists; reflexivity.
  - intros v Hc Hv. unfold parse_response, py_get, ret. rewrite Hc.
    destruct v; try contradiction; reflexivity.
Qed.

(** *** The request body *)

Lemma convert_fold (messages : list Message.t) : forall sys api,
  exists turns,
    fold_left convert_message messages (sys, api)
    = (match last (List.filter is_system messages) with
       | Some m => Some (Message.content m)
       | None => sys
       end, api ++ turns)
    /\ length turns = length (List.filter (fun m => negb (is_system m)) messages)
    /\ Forall api_role_ok turns.
Proof.
  induction messages as [|msg messages IH]; intros sys api.
  - exists []. cbn. rewrite app_nil_r. auto.
  - destruct msg as [role content thinking calls tcid name].
    cbn [fold_left]. unfold convert_message at 2.
    cbn [Message.role Message.content Message.thinking Message.tool_calls
         Message.tool_call_id].
    destruct role; [| |destruct (opt_str_truthy thinking || opt_list_truthy calls)|];
      match goal with
      | |- context [fold_left convert_message messages (?s0, ?a0)] =>
          destruct (IH s0 a0) as (turns & Hf & Hl & Hr); rewrite Hf
      end;
      cbn [List.filter is_system Role.eqb negb Message.role].
    + exists turns. rewrite last_cons.
      destruct (last (List.filter is_system messages)); auto.
    + eexists (_ :: turns). rewrite <- app_assoc. cbn [app length].
      split; [reflexivity|]. split; [now rewrite Hl|].
      constructor; [|exact Hr]. eexists. split; [reflexivity|]. left. reflexivity.
    + eexists (_ :: turns). rewrite <- app_assoc. cbn [app length].
      split; [reflexivity|]. split; [now rewrite Hl|].
      constructor; [|exact Hr]. eexists. split; [reflexivity|]. right. reflexivity.
    + eexists (_ :: turns). rewrite <- app_assoc. cbn [app length].
      split; [reflexivity|]. split; [now rewrite Hl|].
      constructor; [|exact Hr]. eexists. split; [reflexivity|]. right. reflexivity.
    + eexists (_ :: turns). rewrite <- app_assoc. cbn [app length].
      split; [reflexivity|]. split; [now rewrite Hl|].
      constructor; [|exact Hr]. eexists. split; [reflexivity|]. left. reflexivity.
Qed.

(** X19. The request body [generate] builds: the system text is the content
    of the last system message and is left out when there is none or when it
    is empty; the messages are one turn per message that is not a system
    message, each with the role user or assistant (a tool result travels as a
    user turn); the tools are left out when none are given; the model and a
    limit of 16384 tokens are always there. *)
Theorem request_body_shape (self : LLMClient) (messages : list Message.t)
        (tools : option (list PyValue)) :
  exists items turns,
    build_payload self messages tools = PyDict items
    /\ dict_get items "model" = Some (PyStr (model self))
    /\ dict_get items "max_tokens" = Some (PyInt 16384)
    /\ dict_get items "messages" = Some (PyList turns)
    /\ length turns = length (List.filter (fun m => negb (is_system m)) messages)
    /\ Forall api_role_ok turns
    /\ dict_get items "system"
       = match last (List.filter is_system messages) with
         | Some m => if str_truthy (Message.content m)
                     then Some (PyStr (Message.content m)) else None
         | None => None
         end
    /\ dict_get items "tools"
       = (if opt_list_truthy tools then Some (PyList (default [] tools)) else None).
Proof.
  unfold build_payload, convert_messages.
  destruct (convert_fold messages None []) as (turns & Hf & Hl & Hr).
  rewrite Hf. cbn [app].
  eexists _, turns. split; [reflexivity|].
  destruct (last (List.filter is_system messages)) as [m|];
    cbn [opt_str_truthy]; [destruct (str_truthy (Message.content m))|];
    destruct (opt_list_truthy tools); cbn; auto 10.
Qed.

End WireFormat.

(** ** The offline substitute and the prompt text *)

Section OfflineProperties.

Variable http_post : PyValue -> Result PyValue.
Variable async_retry : (PyValue -> Result PyValue) -> PyValue -> Result PyValue.

(** X20. An offline response is of one of two kinds: a final text, not
    empty, with finish reason [stop], which leaves the call counter alone; or
    exactly one tool call and no text, with finish reason [tool_use], whose
    id is [stub-<n>] for the counter advanced by one to [n]. It never
    carries thinking. *)
Theorem offline_response_shape (self : LLMClient) (messages : list Message.t)
        (tools : option (list PyValue)) :
  LLMResponse.thinking (fst (_fake_response self messages tools)) = None
  /\ ((LLMResponse.tool_calls (fst (_fake_response self messages tools)) = None
       /\ LLMResponse.finish_reason (fst (_fake_response self messages tools)) = PyStr "stop"
       /\ str_truthy (LLMResponse.content (fst (_fake_response self messages tools))) = true
       /\ snd (_fake_response self messages tools) = self)
      \/ (exists name args,
            LLMResponse.tool_calls (fst (_fake_response self messages tools))
            = Some [ToolCall.mk ("stub-" +:+ pretty (_fake_call_counter self + 1)%Z)
                                "function" (FunctionCall.mk name args)]
            /\ LLMResponse.finish_reason (fst (_fake_response self messages tools))
               = PyStr "tool_use"
            /\ LLMResponse.content (fst (_fake_response self messages tools)) = ""
            /\ snd (_fake_response self messages tools)
               = with_counter self (_fake_call_counter self + 1)%Z)).
Proof.
  unfold _fake_response.
  repeat match goal with
         | |- context [if ?b then _ else _] =>
             lazymatch b with
             | context [if _ then _ else _] => fail
             | _ => destruct b
             end
         end;
    cbn [fst snd tool_call LLMResponse.thinking LLMResponse.tool_calls
         LLMResponse.finish_reason LLMResponse.content];
    (split; [reflexivity|]);
    first [left; repeat split; reflexivity | right; eexists _, _; repeat split; reflexivity].
Qed.

Lemma fake_response_client (self : LLMClient) (messages : list Message.t)
      (tools : option (list PyValue)) :
  snd (_fake_response self messages tools) = self
  \/ snd (_fake_response self messages tools)
     = with_counter self (_fake_call_counter self + 1)%Z.
Proof.
  unfold _fake_response.
  repeat match goal with
         | |- context [if ?b then _ else _] =>
             lazymatch b with
             | context [if _ then _ else _] => fail
             | _ => destruct b
             end
         end;
    cbn [fst snd tool_call]; auto.
Qed.


(** X22. Offline, [generate] does not depend on the network (the transport
    and the retry decorator are never consulted), never raises, and leaves
    the client offline with a counter that has not gone down; live, it
    leaves the client as it was. *)
Theorem generate_modes (self : LLMClient) (messages : list Message.t)
        (tools : option (list PyValue)) :
  (_offline self = true ->
   (forall http_post' async_retry',
       generate http_post' async_retry' self messages tools
       = generate http_post async_retry self messages tools)
   /\ exists response self',
        generate http_post async_retry self messages tools = (inr response, self')
        /\ _offline self' = true
        /\ (_fake_call_counter self <= _fake_call_counter self')%Z)
  /\ (_offline self = false ->
      snd (generate http_post async_retry self messages tools) = self).
Proof.
  split; intros Hoff; unfold generate; rewrite Hoff.
  - split; [reflexivity|].
    pose proof (fake_response_client self messages tools) as Hshape.
    destruct (_fake_response self messages tools) as [response self'].
    exists response, self'. split; [reflexivity|]. cbn [fst snd] in Hshape.
    destruct Hshape as [-> | ->].
    + split; [exact Hoff|lia].
    + split; [exact Hoff|]. cbn. lia.
  - reflexivity.
Qed.

(** X23. The text of a prompt is the text of its blocks joined by line
    breaks: the text of two runs of blocks put together is the two texts
    with a line break between them. *)
Theorem prompt_text_joins (xs ys : list ContentBlock) :
  xs <> [] -> ys <> [] ->
  acp_to_text (xs ++ ys) = acp_to_text xs +:+ String "010" "" +:+ acp_to_text ys.
Proof.
  intros Hx Hy. unfold acp_to_text.
  induction xs as [|x xs IH]; [congruence|].
  destruct ys as [|y ys]; [congruence|].
  destruct xs as [|x' xs].
  - reflexivity.
  - cbn [app map String.concat] in *. rewrite IH by discriminate.
    now rewrite !append_assoc.
Qed.

End OfflineProperties.

(** ** Starting up: the system prompt and the MCP servers *)

Section Startup.

Lemma rstrip_splits (s : string) :
  exists ws, s = rstrip s +:+ ws /\ all_space ws = true.
Proof.
  induction s as [|c s (ws & Hs & Hws)]; [now exists ""|].
  cbn [rstrip]. destruct (rstrip s) as [|c' r] eqn:Hr.
  - destruct (is_space c) eqn:Hc.
    + exists (String c s). split; [reflexivity|]. cbn [all_space].
      rewrite Hc. cbn in Hs. now rewrite Hs.
    + exists ws. split; [|exact Hws]. cbn in Hs. now rewrite Hs at 1.
  - exists ws. split; [|exact Hws]. rewrite append_cons. now rewrite <- Hs.
Qed.

Lemma rstrip_ends (s : string) : ends_with_space (rstrip s) = false.
Proof.
  induction s as [|c s IH]; [reflexivity|].
  cbn [rstrip]. destruct (rstrip s) as [|c' r] eqn:Hr.
  - destruct (is_space c) eqn:Hc; [reflexivity|]. cbn. exact Hc.
  - exact IH.
Qed.

(** X24. The system prompt is the text of the prompt file, or the default
    sentence when there is no file. With skill metadata that is not empty
    the trailing white space of that text, and nothing else, is replaced by a
    blank line followed by the metadata; without, the text is returned as it
    is, trailing white space included. *)
Theorem system_prompt_shape (file_text skills_meta : option string) :
  let text := default "You are a helpful AI assistant." file_text in
  (opt_str_truthy skills_meta = false -> _load_system_prompt file_text skills_meta = text)
  /\ (forall meta, skills_meta = Some meta -> meta <> "" ->
      exists base ws,
        text = base +:+ ws
        /\ all_space ws = true
        /\ ends_with_space base = false
        /\ _load_system_prompt file_text skills_meta
           = base +:+ String "010" (String "010" "") +:+ meta).
Proof.
  intros text. split.
  - intros H. unfold _load_system_prompt. destruct skills_meta as [meta|]; [|reflexivity].
    cbn in H. now rewrite H.
  - intros meta -> Hne. unfold _load_system_prompt. fold text.
    destruct meta as [|c meta]; [congruence|]. cbn [str_truthy].
    destruct (rstrip_splits text) as (ws & Hs & Hws).
    exists (rstrip text), ws. auto using rstrip_ends.
Qed.

Context {W : Type}.
Variable mcp_connect : W -> McpConnection -> Result (option (list (Tool W))) * W.

Local Abbreviation connect_loop := (ACP.connect_loop W mcp_connect).
Local Abbreviation _connect_mcp_servers := (ACP._connect_mcp_servers W mcp_connect).

Lemma connect_loop_grows (servers : list McpServer) : forall tools connections w r w',
  connect_loop servers tools connections w = (inr r, w') ->
  exists new,
    snd r = connections ++ new
    /\ sublist new (map connection_for (List.filter is_stdio servers)).
Proof.
  induction servers as [|server servers IH]; intros tools connections w r w' H.
  - cbn in H. inversion H; subst. exists []. cbn. now rewrite app_nil_r.
  - cbn [ACP.connect_loop] in H. cbn [List.filter].
    destruct (is_stdio server) eqn:Hs; cbn [negb] in H.
    + destruct (mcp_connect w (connection_for server)) as [[e|[conn_tools|]] w1];
        [discriminate| |].
      * destruct (IH _ _ _ _ _ H) as (new & Hnew & Hsub).
        exists (connection_for server :: new). rewrite Hnew, <- app_assoc.
        split; [reflexivity|]. cbn [map]. now apply sublist_skip.
      * destruct (IH _ _ _ _ _ H) as (new & Hnew & Hsub).
        exists new. split; [exact Hnew|]. cbn [map]. now apply sublist_cons.
    + exact (IH _ _ _ _ _ H).
Qed.

Lemma connect_loop_skips (servers : list McpServer) : forall tools connections w,
  forallb (fun server => negb (is_stdio server)) servers = true ->
  connect_loop servers tools connections w = (inr (tools, connections), w).
Proof.
  induction servers as [|server servers IH]; intros tools connections w H; [reflexivity|].
  cbn [forallb] in H. apply andb_true_iff in H as [Hs H].
  cbn [ACP.connect_loop]. rewrite Hs. now apply IH.
Qed.

(** X25. Connecting the requested MCP servers: a server whose type is not
    stdio is never contacted (when no server is stdio the world is untouched
    and nothing is connected); when the call returns, the connections are
    stdio servers of the request, each at most once and in the order of the
    request, built from their name (or [unknown]), command, arguments and
    environment. *)
Theorem mcp_connections_are_stdio (servers : list McpServer) (w : W) :
  (forallb (fun server => negb (is_stdio server)) servers = true ->
   _connect_mcp_servers servers w = (inr ([], []), w))
  /\ (forall tools connections w',
        _connect_mcp_servers servers w = (inr (tools, connections), w') ->
        sublist connections (map connection_for (List.filter is_stdio servers))).
Proof.
  split.
  - intros H. unfold ACP._connect_mcp_servers.
    destruct servers; [reflexivity|]. now apply connect_loop_skips.
  - intros tools connections w' H. unfold ACP._connect_mcp_servers in H.
    destruct servers as [|server servers].
    + inversion H; subst. constructor.
    + destruct (connect_loop_grows _ _ _ _ _ _ H) as (new & Hnew & Hsub).
      cbn in Hnew. now subst.
Qed.

End Startup.

(** ** The further statements on the worlds of [Scenario] *)

Lemma model_failure_refuses_witness :
  exists t',
    _run_turn unit failing_model silent_conn never_cancel "s"
              (turn_with [("echo", echo_tool)] 2 false) = ("refusal", t')
    /\ conversation t' = conversation (turn_with [("echo", echo_tool)] 2 false).
Proof.
  destruct (model_failure_refuses failing_model silent_conn never_cancel "s"
              (turn_with [("echo", echo_tool)] 2 false)
              (turn_with [("echo", echo_tool)] 2 false) 0
              (TransportError "connection refused") tt)
    as (t' & Hrun & Hconv & _).
  - vm_compute. lia.
  - reflexivity.
  - reflexivity.
  - reflexivity.
  - exists t'. split; assumption.
Defined.

Lemma plain_response_ends_turn_witness :
  exists t',
    _run_turn unit answers_plainly silent_conn never_cancel "s"
              (turn_with [("echo", echo_tool)] 2 false) = ("end_turn", t')
    /\ conversation t'
       = conversation (turn_with [("echo", echo_tool)] 2 false)
         ++ [assistant_message plain_answer].
Proof.
  destruct (plain_response_ends_turn answers_plainly silent_conn never_cancel "s"
              (turn_with [("echo", echo_tool)] 2 false)
              (turn_with [("echo", echo_tool)] 2 false) 0 plain_answer tt)
    as (t' & Hrun & Hconv & _).
  - vm_compute. lia.
  - reflexivity.
  - reflexivity.
  - reflexivity.
  - reflexivity.
  - reflexivity.
  - exists t'. split; assumption.
Defined.

Lemma exhausted_turn_spent_budget_witness :
  exists evs,
    trace (snd (_run_turn unit asks_echo silent_conn never_cancel "s"
                          (turn_with [("echo", echo_tool)] 2 false)))
    = [] ++ evs
    /\ tally is_generate evs = 2%nat.
Proof.
  apply (exhausted_turn_spent_budget asks_echo silent_conn never_cancel "s"
           (turn_with [("echo", echo_tool)] 2 false)).
  vm_compute. reflexivity.
Defined.

Lemma step_events_in_order_witness :
  exists t' outcomes,
    run_step unit asks_two silent_conn never_cancel "s"
             (turn_with [("echo", echo_tool)] 2 false) = (None, t')
    /\ map outcome_ran outcomes = [true; false].
Proof.
  destruct (step_events_in_order asks_two silent_conn never_cancel "s"
              (turn_with [("echo", echo_tool)] 2 false)
              (LLMResponse.mk "On it." None (Some [echo_call; ghost_call]) (PyStr "tool_use"))
              tt [echo_call; ghost_call] eq_refl eq_refl eq_refl eq_refl
              ltac:(discriminate))
    as (t' & outcomes & Hstep & Hlen & Hran & _).
  exists t', outcomes. split; [exact Hstep|].
  inversion Hran as [|c1 o1 cs1 os1 H1 Hran1]; subst.
  inversion Hran1 as [|c2 o2 cs2 os2 H2 Hran2]; subst.
  inversion Hran2; subst. cbn [map]. rewrite H1, H2. reflexivity.
Defined.

Lemma tool_result_reported_witness :
  exists o,
    conversation (dispatch_call unit silent_conn never_cancel "s"
                                (turn_with [("echo", echo_tool)] 2 false) echo_call)
    = conversation (turn_with [("echo", echo_tool)] 2 false)
      ++ [tool_message echo_call (outcome_text o)]
    /\ outcome_status o = completed /\ outcome_text o = "hi".
Proof.
  destruct (tool_result_reported silent_conn never_cancel "s"
              (turn_with [("echo", echo_tool)] 2 false) echo_call echo_tool
              (mkToolResult true "hi" None) tt eq_refl eq_refl)
    as (o & Hconv & _ & _ & Hok & _).
  exists o. split; [exact Hconv|]. exact (Hok eq_refl).
Defined.

Lemma turn_keeps_pairing_witness :
  paired (conversation (snd (_run_turn unit asks_two silent_conn never_cancel "s"
                                       (turn_with [("echo", echo_tool)] 2 false)))).
Proof.
  apply (turn_keeps_pairing asks_two silent_conn never_cancel "s"
           (turn_with [("echo", echo_tool)] 2 false)).
  intros i m Hi Hrole. destruct i as [|i]; cbn in Hi; [|discriminate].
  inversion Hi; subst. discriminate.
Defined.

Lemma cancel_sets_flag_only_witness :
  session_of (cancel unit two_sessions "sess-0-01234567") "sess-0-01234567"
  = Some (set_cancelled true
            (mkSessionState unit (agent_with [("echo", echo_tool)] 2) [] false)).
Proof.
  apply (cancel_sets_flag_only asks_echo silent_conn never_cancel two_sessions
           "sess-0-01234567"
           (mkSessionState unit (agent_with [("echo", echo_tool)] 2) [] false)).
  - unfold two_sessions, one_session. do 2 apply reach_newSession. apply reach_init.
  - vm_compute. reflexivity.
Defined.

Lemma prompt_appends_user_message_witness :
  exists st' ext,
    session_of (snd (prompt unit answers_plainly silent_conn never_cancel two_sessions
                            "sess-0-01234567" [TextBlock "What is 123 + 456?"]))
               "sess-0-01234567" = Some st'
    /\ messages (agent st')
       = messages (agent_with [("echo", echo_tool)] 2)
         ++ user_message [TextBlock "What is 123 + 456?"] :: ext.
Proof.
  destruct (prompt_appends_user_message answers_plainly silent_conn never_cancel
              two_sessions "sess-0-01234567" [TextBlock "What is 123 + 456?"]
              (mkSessionState unit (agent_with [("echo", echo_tool)] 2) [] false))
    as (st' & ext & Hs & Hm & _).
  - vm_compute. reflexivity.
  - exists st', ext. split; assumption.
Defined.


Lemma segments_round_trip_witness :
  exists response,
    parse_response
      (PyDict [("content",
                PyList (content_blocks
                          (Message.mk Role.assistant "On it." None
                                      (Some [echo_call; ghost_call]) None None)));
               ("stop_reason", PyStr "tool_use")])
    = inr response
    /\ LLMResponse.content response = "On it."
    /\ LLMResponse.thinking response = None
    /\ LLMResponse.tool_calls response = Some [echo_call; ghost_call].
Proof.
  destruct (segments_round_trip
              (Message.mk Role.assistant "On it." None (Some [echo_call; ghost_call])
                          None None)
              [("content",
                PyList (content_blocks
                          (Message.mk Role.assistant "On it." None
                                      (Some [echo_call; ghost_call]) None None)));
               ("stop_reason", PyStr "tool_use")] eq_refl)
    as (response & Hparse & Hc & Ht & Htc & _).
  exists response. repeat split; assumption.
Defined.

Lemma other_segments_ignored_witness :
  parse_response
    (PyDict [("content",
              PyList ([PyDict [("type", PyStr "text"); ("text", PyStr "a")]]
                      ++ PyDict [("type", PyStr "redacted_thinking"); ("data", PyStr "x")]
                      :: [PyDict [("type", PyStr "text"); ("text", PyStr "b")]]))])
  = parse_response
      (PyDict [("content",
                PyList ([PyDict [("type", PyStr "text"); ("text", PyStr "a")]]
                        ++ [PyDict [("type", PyStr "text"); ("text", PyStr "b")]]))]).
Proof.
  apply (other_segments_ignored
           [("content",
             PyList ([PyDict [("type", PyStr "text"); ("text", PyStr "a")]]
                     ++ PyDict [("type", PyStr "redacted_thinking"); ("data", PyStr "x")]
                     :: [PyDict [("type", PyStr "text"); ("text", PyStr "b")]]))]
           [("content",
             PyList ([PyDict [("type", PyStr "text"); ("text", PyStr "a")]]
                     ++ [PyDict [("type", PyStr "text"); ("text", PyStr "b")]]))]
           [PyDict [("type", PyStr "text"); ("text", PyStr "a")]]
           [PyDict [("type", PyStr "text"); ("text", PyStr "b")]]
           [("type", PyStr "redacted_thinking"); ("data", PyStr "x")]);
    reflexivity.
Defined.

Lemma empty_body_parses_empty_witness :
  parse_response (PyDict [("id", PyStr "msg-2"); ("stop_reason", PyStr "max_tokens")])
  = inr (LLMResponse.mk "" None None (PyStr "max_tokens")).
Proof.
  apply (empty_body_parses_empty [("id", PyStr "msg-2"); ("stop_reason", PyStr "max_tokens")]).
  left. reflexivity.
Defined.

Lemma prompt_text_joins_witness :
  acp_to_text ([TextBlock "Fix the bug"; OtherBlock] ++ [TextBlock "in main.py"])
  = acp_to_text [TextBlock "Fix the bug"; OtherBlock] +:+ String "010" ""
    +:+ acp_to_text [TextBlock "in main.py"].
Proof.
  apply (prompt_text_joins [TextBlock "Fix the bug"; OtherBlock] [TextBlock "in main.py"]);
    discriminate.
Defined.

Lemma turn_within_budget_witness :
  _run_turn unit asks_echo silent_conn never_cancel "s"
            (turn_with [("echo", echo_tool)] 0 false)
  = ("max_turn_requests", turn_with [("echo", echo_tool)] 0 false).
Proof.
  apply (turn_within_budget asks_echo silent_conn never_cancel "s"
           (turn_with [("echo", echo_tool)] 0 false)).
  vm_compute. discriminate.
Defined.

Lemma stop_reason_describes_state_witness :
  exists m,
    last (conversation (snd (_run_turn unit answers_plainly silent_conn never_cancel "s"
                                       (turn_with [("echo", echo_tool)] 2 false))))
    = Some m
    /\ Message.role m = Role.assistant
    /\ opt_list_truthy (Message.tool_calls m) = false.
Proof.
  apply (stop_reason_describes_state answers_plainly silent_conn never_cancel "s"
           (turn_with [("echo", echo_tool)] 2 false)).
  vm_compute. reflexivity.
Defined.

Lemma malformed_content_raises_witness :
  (exists e,
      parse_response
        (PyDict [("content",
                  PyList [PyDict [("type", PyStr "text"); ("text", PyStr "a")];
                          PyStr "oops"])])
      = inl e)
  /\ parse_response (PyDict [("content", PyInt 3)])
     = inl (TypeError "'int' object is not iterable").
Proof.
  split.
  - apply (proj1 (malformed_content_raises
                    [("content",
                      PyList [PyDict [("type", PyStr "text"); ("text", PyStr "a")];
                              PyStr "oops"])])
                 [PyDict [("type", PyStr "text"); ("text", PyStr "a")]; PyStr "oops"]
                 (PyStr "oops")).
    + reflexivity.
    + right. left. reflexivity.
    + reflexivity.
  - apply (proj2 (malformed_content_raises [("content", PyInt 3)]) (PyInt 3)).
    + reflexivity.
    + exact I.
Defined.


Lemma generate_modes_witness :
  (exists response self',
      generate unreachable_backend no_retry offline_client
               [Message.mk Role.user "What is 123 + 456?" None None None None] None
      = (inr response, self')
      /\ _offline self' = true
      /\ (_fake_call_counter offline_client <= _fake_call_counter self')%Z)
  /\ snd (generate unreachable_backend no_retry live_client
                   [Message.mk Role.user "What is 123 + 456?" None None None None] None)
     = live_client.
Proof.
  split.
  - apply (proj1 (generate_modes unreachable_backend no_retry offline_client
                    [Message.mk Role.user "What is 123 + 456?" None None None None] None)).
    reflexivity.
  - apply (proj2 (generate_modes unreachable_backend no_retry live_client
                    [Message.mk Role.user "What is 123 + 456?" None None None None] None)).
    reflexivity.
Defined.

Lemma system_prompt_shape_witness :
  exists base ws,
    "Be brief.  " = base +:+ ws
    /\ all_space ws = true
    /\ ends_with_space base = false
    /\ _load_system_prompt (Some "Be brief.  ") (Some "Skills: pdf")
       = base +:+ String "010" (String "010" "") +:+ "Skills: pdf".
Proof.
  apply (proj2 (system_prompt_shape (Some "Be brief.  ") (Some "Skills: pdf"))
               "Skills: pdf").
  - reflexivity.
  - discriminate.
Defined.

Lemma mcp_connections_are_stdio_witness :
  _connect_mcp_servers unit connects [http_server] tt = (inr ([], []), tt)
  /\ sublist [connection_for stdio_server]
             (map connection_for (List.filter is_stdio [http_server; stdio_server])).
Proof.
  split.
  - apply (proj1 (mcp_connections_are_stdio connects [http_server] tt)). reflexivity.
  - apply (proj2 (mcp_connections_are_stdio connects [http_server; stdio_server] tt)
                 [echo_tool] [connection_for stdio_server] tt).
    reflexivity.
Defined.
